(** * gerrit-monitor: the popup of the extension (src/popup.js)

    A shallow embedding of [popup.js] and the properties of its widget tree,
    of the markup it renders and of the overlay state it drives.

    [popup.js] imports six modules whose sources are not part of the
    development ([browser.js], [comm.js], [config.js], [dombuilder.js],
    [gerrit.js], [messages.js]).  Their constants are taken as parameters
    (the records [Messages] and [Config]); the few operations that
    [popup.js] calls on them are modelled from the specification, each one
    marked as such.  The promise chain of [onLoaded] ([getMainWidget],
    [getSearchResults]) is not modelled: the development covers the widget
    classes and the functions that [onLoaded] ends in, [renderWidget] and
    [displayError], with the functions they call. *)

From stdpp Require Import base option list strings gmap.
From Stdlib Require Import ZArith.

(** ** JavaScript values used by [popup.js] *)

(** A [Map] object: the entries in insertion order.  [Map.prototype.set]
    keeps one entry per key, so the keys of a map built by the program are
    pairwise distinct ([JsMap.wf]). *)
Module JsMap.
Abbreviation t V := (list (string * V)).

Fixpoint get {V} (m : t V) (key : string) : option V :=
  match m with
  | [] => None
  | (k, v) :: m' => if decide (k = key) then Some v else get m' key
  end.

Definition has {V} (m : t V) (key : string) : bool :=
  match get m key with Some _ => true | None => false end.

Definition keys {V} (m : t V) : list string := m.*1.

Definition wf {V} (m : t V) : Prop := NoDup (keys m).
End JsMap.

(** [Array.prototype.forEach] with a callback that updates the state [S]
    and may throw ([None]). *)
Fixpoint forEachM {A S} (f : A → S → option S) (l : list A) (s : S)
  : option S :=
  match l with
  | [] => Some s
  | x :: l' => match f x s with
               | Some s' => forEachM f l' s'
               | None => None
               end
  end.

(** A function body read as a sequence of statements, each of which either
    returns a value or falls through to the next statement; the function
    yields the value of the first [return] that is executed. *)
Fixpoint first_return {A} (body : list (option A)) : option A :=
  match body with
  | [] => None
  | Some v :: _ => Some v
  | None :: rest => first_return rest
  end.

Definition return_ {A} (v : A) : option A := Some v.
Definition if_return {A} (c : bool) (v : A) : option A :=
  if c then Some v else None.

(** The values that reach [displayError]: a rejection carries a string or
    an [Error] object (name and message); [undefined] and [null] are kept
    for completeness. *)
Inductive JsValue :=
| JsStr (s : string)
| JsError (name message : string)
| JsUndefined
| JsNull.

(** [String(v)]; for an [Error] object this is [Error.prototype.toString]. *)
Definition String_ (v : JsValue) : string :=
  match v with
  | JsStr s => s
  | JsError n m =>
      if decide (n = "") then m
      else if decide (m = "") then n
      else n +:+ ": " +:+ m
  | JsUndefined => "undefined"
  | JsNull => "null"
  end.

(** [String.prototype.startsWith] and [String.prototype.includes]. *)
Fixpoint startsWith (s search : string) {struct search} : bool :=
  match search, s with
  | EmptyString, _ => true
  | String _ _, EmptyString => false
  | String c search', String d s' =>
      if decide (c = d) then startsWith s' search' else false
  end.

Fixpoint includes (s search : string) : bool :=
  startsWith s search ||
  match s with
  | EmptyString => false
  | String _ s' => includes s' search
  end.

(** ** [gerrit.js]: the records shown by the popup *)
Module gerrit.
(** Modelled from the spec: a reviewer entry of a CL record, "name +
    approval value"; [gerrit.js] is not part of the sources. *)
Record ReviewerInfo := { name : string; value : Z }.

Record Description := { getMessage : string }.

(** Modelled from the spec: the CL record of [gerrit.js], "author name,
    list of reviewer entries, description/message text, a Gerrit URL, a
    size category, and resolved/submittable status flags", immutable
    after construction; each field is the result of the accessor of the
    same name. *)
Record Changelist := {
  getGerritUrl : string;
  getAuthor : string;
  getSizeCategory : string;
  getReviewers : list ReviewerInfo;
  getDescription : Description;
  hasUnresolvedComments : bool;
  isSubmittable : bool;
}.

(** Modelled from the spec: [SearchResults] "exposes a mapping from
    attention-category key to a list of CL records". *)
Record SearchResults := {
  getCategoryMap : JsMap.t (list Changelist);
}.

(** Modelled from the spec: the host-allowlist query yields "an ordered
    list of {host, name} pairs". *)
Record Instance := { host : string; instance_name : string }.
End gerrit.

(** ** [messages.js] and [config.js]: constants taken as parameters *)

(** An entry of [messages.POPUP_SECTION_DATA]. *)
Record SectionData := {
  className : string;
  formatHeader : nat → string;
}.

Record Messages := {
  SECTION_ORDERING : list string;
  (** property lookup [POPUP_SECTION_DATA[attention]]; [None] is
      [undefined] *)
  POPUP_SECTION_DATA : string → option SectionData;
  NO_CLS_MESSAGE : string;
}.

Record Config := {
  LOGIN_PROMPT : string;
  NO_HOST_ALLOWED : string;
}.

(** ** The DOM *)

(** What a listener registered by [popup.js] does when it fires. *)
Inductive Handler :=
| OpenUrl (url : string)       (* browser.openUrl(url) *)
| OpenOptionsPage.             (* browser.openOptionsPage() *)

Record ElementOf (N : Type) := {
  tagName : string;
  classList : list string;
  attributes : list (string * string);
  listeners : list (string * Handler);
  style_display : option string;   (* [None] is [null] *)
  innerText : string;              (* last value assigned to [innerText] *)
  childNodes : list N;
}.
Arguments tagName {N} _.
Arguments classList {N} _.
Arguments attributes {N} _.
Arguments listeners {N} _.
Arguments style_display {N} _.
Arguments innerText {N} _.
Arguments childNodes {N} _.

#[warnings="-register-all"] Inductive Node :=
| TextNode (data : string)
| ElementNode (e : ElementOf Node).

Abbreviation Element := (ElementOf Node).

Definition createElement (tag : string) : Element :=
  {| tagName := tag; classList := []; attributes := []; listeners := [];
     style_display := None; innerText := ""; childNodes := [] |}.

Definition set_childNodes (cs : list Node) (e : Element) : Element :=
  {| tagName := tagName e; classList := classList e;
     attributes := attributes e; listeners := listeners e;
     style_display := style_display e; innerText := innerText e;
     childNodes := cs |}.

Definition appendChild (n : Node) (e : Element) : Element :=
  set_childNodes (childNodes e ++ [n]) e.

(** [classList.add]: the class list is a set of tokens. *)
Definition classList_add (c : string) (e : Element) : Element :=
  {| tagName := tagName e;
     classList := if decide (c ∈ classList e) then classList e
                  else classList e ++ [c];
     attributes := attributes e; listeners := listeners e;
     style_display := style_display e; innerText := innerText e;
     childNodes := childNodes e |}.

Fixpoint assoc_set (k v : string) (l : list (string * string))
  : list (string * string) :=
  match l with
  | [] => [(k, v)]
  | (k', v') :: l' =>
      if decide (k' = k) then (k, v) :: l' else (k', v') :: assoc_set k v l'
  end.

Definition setAttribute_ (k v : string) (e : Element) : Element :=
  {| tagName := tagName e; classList := classList e;
     attributes := assoc_set k v (attributes e); listeners := listeners e;
     style_display := style_display e; innerText := innerText e;
     childNodes := childNodes e |}.

Definition addEventListener (event : string) (h : Handler) (e : Element)
  : Element :=
  {| tagName := tagName e; classList := classList e;
     attributes := attributes e; listeners := listeners e ++ [(event, h)];
     style_display := style_display e; innerText := innerText e;
     childNodes := childNodes e |}.

Definition set_style_display (d : option string) (e : Element) : Element :=
  {| tagName := tagName e; classList := classList e;
     attributes := attributes e; listeners := listeners e;
     style_display := d; innerText := innerText e;
     childNodes := childNodes e |}.

Definition set_innerText (s : string) (e : Element) : Element :=
  {| tagName := tagName e; classList := classList e;
     attributes := attributes e; listeners := listeners e;
     style_display := style_display e; innerText := s;
     childNodes := childNodes e |}.

(** An element is shown unless its inline style says [display: none]. *)
Definition visible (e : Element) : bool :=
  bool_decide (style_display e ≠ Some "none").

(** [Node.textContent]: the text of the descendants, in document order. *)
Fixpoint textContent (n : Node) : string :=
  match n with
  | TextNode d => d
  | ElementNode e =>
      (fix go (l : list Node) : string :=
         match l with
         | [] => ""
         | c :: l' => textContent c +:+ go l'
         end) (childNodes e)
  end.

(** The element children of an element ([ParentNode.children]). *)
Definition children (e : Element) : list Element :=
  omap (λ n, match n with ElementNode c => Some c | TextNode _ => None end)
       (childNodes e).

(** ** [dombuilder.js] *)

(** Fluent call chains [b.f(x).g(y)] are written [b |> f x |> g y]. *)
Notation "b |> f" := (f b) (at level 68, left associativity, only parsing).

Module DomBuilder.
(** Modelled from the spec: the DOM builder is "a fluent helper that
    creates and appends DOM nodes, sets attributes/classes/text, and
    supports iteration callbacks"; [dombuilder.js] is not part of the
    sources.  A builder is attached to an element ([root]); [begin]
    opens a new element below the current one, and the new element is
    the current one until the matching [end]; every other call acts on
    the current element.  [stack_] holds the open elements, innermost
    first.  The builder of the program mutates the attached element in
    place: here the caller stores [root] back once the chain is over. *)
Record t := { root : Element; stack_ : list Element }.

Definition attach (element : Element) : t :=
  {| root := element; stack_ := [] |}.

(** Applies [f] to the current element. *)
Definition withCurrentNode (f : Element → Element) (b : t) : t :=
  match stack_ b with
  | [] => {| root := f (root b); stack_ := [] |}
  | e :: rest => {| root := root b; stack_ := f e :: rest |}
  end.

Definition begin (tag : string) (b : t) : t :=
  {| root := root b; stack_ := createElement tag :: stack_ b |}.

(** Closes the current element, which becomes the last child of the
    element below it.  With no open element there is nothing to close. *)
Definition end_ (tag : string) (b : t) : t :=
  match stack_ b with
  | [] => b
  | e :: rest =>
      withCurrentNode (appendChild (ElementNode e))
                      {| root := root b; stack_ := rest |}
  end.

Definition addClass (c : string) : t → t :=
  withCurrentNode (classList_add c).

Definition appendText (text : string) : t → t :=
  withCurrentNode (appendChild (TextNode text)).

Definition setAttribute (k v : string) : t → t :=
  withCurrentNode (setAttribute_ k v).

(** [forEach(list, callback)] calls [callback(item, builder, index)] on
    the items in order. *)
Fixpoint forEach_from {A} (index : nat) (l : list A)
    (callback : A → t → nat → t) (b : t) : t :=
  match l with
  | [] => b
  | item :: l' => forEach_from (S index) l' callback (callback item b index)
  end.

Definition forEach {A} (l : list A) (callback : A → t → nat → t) : t → t :=
  forEach_from 0 l callback.
End DomBuilder.

(** ** The widgets of [popup.js] *)

(** A widget displaying a single CL. *)
Module ChangelistWidget.
Import DomBuilder.

Record t := { cl_ : gerrit.Changelist }.

Definition getGerritUrl (w : t) : string := gerrit.getGerritUrl (cl_ w).
Definition getAuthor (w : t) : string := gerrit.getAuthor (cl_ w).

(** [return '';] comes first; the three statements after it are kept as
    they stand in the source. *)
Definition getStatusMarker (w : t) : option string :=
  first_return
    [ return_ "";
      if_return (gerrit.hasUnresolvedComments (cl_ w)) "tbr";
      if_return (gerrit.isSubmittable (cl_ w)) "lgtm";
      return_ "pending" ].

Definition getSizeCategory (w : t) : string :=
  gerrit.getSizeCategory (cl_ w).
Definition getReviewers (w : t) : list gerrit.ReviewerInfo :=
  gerrit.getReviewers (cl_ w).
Definition getDescription (w : t) : gerrit.Description :=
  gerrit.getDescription (cl_ w).

Definition setHeader (w : t) (node : Element) : Element :=
  addEventListener "click" (OpenUrl (getGerritUrl w)) node.

(** The callback of the [forEach] over the reviewers. *)
Definition renderReviewer (info : gerrit.ReviewerInfo)
    (builder : DomBuilder.t) (index : nat) : DomBuilder.t :=
  let builder :=
    if 0 <? index then builder |> appendText ", "
    else builder in
  let lgtm := (gerrit.value info >? 0)%Z in
  builder
  |> begin "span"
  |>   addClass (if lgtm then "lgtmreviewer" else "nolgtmreviewer")
  |>   appendText (gerrit.name info)
  |> end_ "span".

(** [x + 'marker'] where [x] is the result of a call: [undefined] would
    print as ["undefined"]. *)
Definition concat_marker (x : option string) (suffix : string) : string :=
  default "undefined" x +:+ suffix.

Definition render (w : t) (builder : DomBuilder.t) : DomBuilder.t :=
  builder
  |> begin "div"
  |>   addClass "changelist"
  |>   begin "div"
  |>     addClass "changelistheader"
  |>     withCurrentNode (setHeader w)
  |>     begin "table"
  |>       addClass "changelisttable"
  |>       begin "tr"
  |>         begin "td"
  |>           begin "div"
  |>             addClass "statusmarker"
  |>             begin "div"
  |>               addClass "marker"
  |>               addClass (concat_marker (getStatusMarker w) "marker")
  |>               addClass (getSizeCategory w +:+ "size")
  |>             end_ "div"
  |>           end_ "div"
  |>         end_ "td"
  |>         begin "td"
  |>           begin "div"
  |>             addClass "author"
  |>             appendText (getAuthor w)
  |>           end_ "div"
  |>         end_ "td"
  |>         begin "td"
  |>           begin "div"
  |>             addClass "reviewers"
  |>             forEach (getReviewers w) renderReviewer
  |>           end_ "div"
  |>         end_ "td"
  |>         begin "td"
  |>           begin "div"
  |>             addClass "description"
  |>             appendText (gerrit.getMessage (getDescription w))
  |>           end_ "div"
  |>         end_ "td"
  |>       end_ "tr"
  |>     end_ "table"
  |>   end_ "div"
  |> end_ "div".

Definition wrap (cl : gerrit.Changelist) : t := {| cl_ := cl |}.
End ChangelistWidget.

(** A widget displaying a section of CLs. *)
Module SectionWidget.
Import DomBuilder.

Record t := { attention_ : string; cls_ : list ChangelistWidget.t }.

Definition new (attention : string) : t :=
  {| attention_ := attention; cls_ := [] |}.

Definition addChangelist (cl : ChangelistWidget.t) (w : t) : t :=
  {| attention_ := attention_ w; cls_ := cls_ w ++ [cl] |}.

(** [None]: [data] is [undefined] and reading [data.className] throws. *)
Definition render (messages : Messages) (w : t) (builder : DomBuilder.t)
  : option DomBuilder.t :=
  data ← POPUP_SECTION_DATA messages (attention_ w);
  Some (builder
        |> begin "div"
        |>   addClass "section"
        |>   addClass (className data)
        |>   begin "div"
        |>     appendText (formatHeader data (length (cls_ w)))
        |>     addClass "sectionheader"
        |>   end_ "div"
        |>   forEach (cls_ w)
               (λ cl builder index, ChangelistWidget.render cl builder)
        |> end_ "div").

Definition create (attention : string) (cls : list gerrit.Changelist) : t :=
  fold_left (λ widget cl, addChangelist (ChangelistWidget.wrap cl) widget)
            cls (new attention).
End SectionWidget.

(** The main widget in the popup. *)
Module PopupWidget.
Record t := { sections_ : list SectionWidget.t }.

Definition new : t := {| sections_ := [] |}.

Definition getSections (w : t) : list SectionWidget.t := sections_ w.

(** [section] is [None] for [null] (and [undefined], since the test is
    [!=]). *)
Definition addSection (section : option SectionWidget.t) (w : t) : t :=
  match section with
  | Some s => {| sections_ := sections_ w ++ [s] |}
  | None => w
  end.

Definition render (messages : Messages) (w : t) (builder : DomBuilder.t)
  : option DomBuilder.t :=
  forEachM (λ section builder, SectionWidget.render messages section builder)
           (sections_ w) builder.

(** [None]: [categories.get(attention)] is [undefined] and
    [SectionWidget.create] throws on [cls.forEach]. *)
Definition create (messages : Messages) (results : gerrit.SearchResults)
  : option t :=
  let categories := gerrit.getCategoryMap results in
  forEachM
    (λ attention widget,
       if JsMap.has categories attention then
         cls ← JsMap.get categories attention;
         Some (addSection (Some (SectionWidget.create attention cls)) widget)
       else Some widget)
    (SECTION_ORDERING messages) new.
End PopupWidget.

(** ** The popup page and the functions that drive it *)

(** A callback registered with [.then] on the promise returned by
    [gerrit.fetchAllowedInstances()]; it runs later, once the promise is
    settled.  [PopulateLogin] is the callback of [setLoginLinkVisible]. *)
Inductive Reaction := PopulateLogin.

Inductive Settlement :=
| Fulfilled (instances : list gerrit.Instance)
| Rejected (reason : JsValue).

(** The state that [popup.js] works on: the elements of the popup page
    that carry an identifier, and the reactions that wait for their
    promise, oldest first. *)
Record Page := {
  elements : gmap string Element;
  pending : list Reaction;
}.

(** A computation on the page; [None] is an uncaught exception (the state
    of the page at that point is not tracked). *)
Definition Js (A : Type) : Type := Page → option (A * Page).

Global Instance Js_ret : MRet Js := λ A x p, Some (x, p).
Global Instance Js_bind : MBind Js := λ A B f m p,
  match m p with
  | Some (x, p') => f x p'
  | None => None
  end.

Module browser.
(** Modelled from the spec: the browser surface lets the popup "read a
    DOM element by a fixed identifier"; the result is [null] ([None])
    when the page has no such element.  [browser.js] is not part of the
    sources. *)
Definition getElement (identifier : string) : Js (option Element) :=
  λ p, Some (elements p !! identifier, p).

(** A write through the reference returned by [getElement]: [f] is the
    mutation; dereferencing [null] throws a [TypeError]. *)
Definition update (identifier : string) (f : Element → Element) : Js unit :=
  λ p, match elements p !! identifier with
       | Some e => Some ((), {| elements := <[identifier := f e]> (elements p);
                                pending := pending p |})
       | None => None
       end.
End browser.

(** Modelled from the spec: [gerrit.fetchAllowedInstances().then(callback)];
    the login links are "fetched asynchronously", so [callback] does not
    run before the current function is over. *)
Definition fetchAllowedInstances_then (callback : Reaction) : Js unit :=
  λ p, Some ((), {| elements := elements p;
                    pending := pending p ++ [callback] |}).

(** [while (login.firstChild) login.removeChild(login.firstChild);]
    [cs] is the list of the children that [e] still has. *)
Fixpoint removeChildren (cs : list Node) (e : Element) : Element :=
  match cs with
  | [] => e
  | firstChild :: cs' => removeChildren cs' (set_childNodes cs' e)
  end.

Section Popup.
Variable messages : Messages.
Variable config : Config.

(** Sets the message text of the overlay panel. *)
Definition setOverlayText (value : string) : Js unit :=
  browser.update "overlay-text" (set_innerText value).

(** Configure the visibility of the element with the given identifier. *)
Definition setElementVisibility (identifier : string) (visible : bool)
  : Js unit :=
  browser.update identifier
    (set_style_display (if visible then None else Some "none")).

Definition setGrantPermissionsButtonVisible (visible : bool) : Js unit :=
  setElementVisibility "permissions" visible;;
  if visible then
    browser.update "permissions-button"
      (addEventListener "click" OpenOptionsPage)
  else mret ().

(** The body of the callback given to [.then] in [setLoginLinkVisible]. *)
Definition renderLoginLinks (instances : list gerrit.Instance)
    (login : Element) : Element :=
  DomBuilder.root
    (DomBuilder.attach login
     |> DomBuilder.begin "div"
     |>   DomBuilder.forEach instances (λ instance builder index,
            builder
            |> DomBuilder.begin "a"
            |>   DomBuilder.setAttribute "target" "_blank"
            |>   DomBuilder.setAttribute "href" (gerrit.host instance)
            |>   DomBuilder.appendText (gerrit.instance_name instance)
            |> DomBuilder.end_ "a"
            |> DomBuilder.begin "br"
            |> DomBuilder.end_ "br")
     |> DomBuilder.end_ "div").

Definition setLoginLinkVisible (visible : bool) : Js unit :=
  setElementVisibility "login" visible;;
  if negb visible then mret ()
  else
    browser.update "login" (λ login, removeChildren (childNodes login) login);;
    fetchAllowedInstances_then PopulateLogin.

(** Toggles visibility of the overlay panel. *)
Definition setOverlayVisible (visible : bool) : Js unit :=
  if visible then
    browser.update "overlay" (set_style_display None);;
    browser.update "results" (set_style_display (Some "none"))
  else
    browser.update "overlay" (set_style_display (Some "none"));;
    browser.update "results" (set_style_display None);;
    setGrantPermissionsButtonVisible false;;
    setLoginLinkVisible false.

(** Renders the main widget as part of the DOM. *)
Definition renderWidget (widget : PopupWidget.t) : Js unit :=
  if bool_decide (length (PopupWidget.getSections widget) = 0) then
    setOverlayText (NO_CLS_MESSAGE messages +:+ ".");;
    setOverlayVisible true
  else
    (λ p, results ← elements p !! "results";
          builder ← PopupWidget.render messages widget
                      (DomBuilder.attach results);
          Some ((), {| elements := <["results" := DomBuilder.root builder]>
                                     (elements p);
                       pending := pending p |}));;
    setOverlayVisible false.

(** Shows the given error message. *)
Definition displayError (error : JsValue) : Js unit :=
  let error_string := String_ error in
  setOverlayText error_string;;
  setOverlayVisible true;;
  setLoginLinkVisible (includes error_string (LOGIN_PROMPT config));;
  setGrantPermissionsButtonVisible
    (includes error_string (NO_HOST_ALLOWED config)).

(** Runs a reaction whose promise was fulfilled with [instances]. *)
Definition run (r : Reaction) (instances : list gerrit.Instance) : Js unit :=
  match r with
  | PopulateLogin => browser.update "login" (renderLoginLinks instances)
  end.

(** The promise of the [i]-th waiting reaction is settled: the reaction
    runs when the promise is fulfilled, and is dropped when it is
    rejected (no rejection handler is registered).  Nothing happens when
    fewer than [i + 1] reactions wait. *)
Definition settle (i : nat) (s : Settlement) : Js unit :=
  λ p, match pending p !! i with
       | None => Some ((), p)
       | Some r =>
           let p' := {| elements := elements p;
                        pending := delete i (pending p) |} in
           match s with
           | Fulfilled instances => run r instances p'
           | Rejected _ => Some ((), p')
           end
       end.
End Popup.

(** ** Observations on the rendered markup *)

(** The nodes [ns] added after the children that [e] already has. *)
Definition appendNodes (ns : list Node) (e : Element) : Element :=
  set_childNodes (childNodes e ++ ns) e.

(** The element reached from [e] by taking, at each step, the child
    element of the given index ([e.children[i].children[j]...]). *)
Fixpoint descend (path : list nat) (e : Element) : option Element :=
  match path with
  | [] => Some e
  | i :: path' => match children e !! i with
                  | Some c => descend path' c
                  | None => None
                  end
  end.

(** The markup that each widget renders into an empty container. *)
Definition ChangelistWidget_markup (w : ChangelistWidget.t) : list Node :=
  childNodes (DomBuilder.root
    (ChangelistWidget.render w (DomBuilder.attach (createElement "div")))).

Definition SectionWidget_markup (messages : Messages) (w : SectionWidget.t)
  : option (list Node) :=
  b ← SectionWidget.render messages w (DomBuilder.attach (createElement "div"));
  Some (childNodes (DomBuilder.root b)).

Definition PopupWidget_markup (messages : Messages) (w : PopupWidget.t)
  : option (list Node) :=
  b ← PopupWidget.render messages w (DomBuilder.attach (createElement "div"));
  Some (childNodes (DomBuilder.root b)).

(** Positions in the row of a changelist: the cell of the status marker
    and the cell of the reviewers. *)
Definition marker_path : list nat := [0; 0; 0; 0; 0; 0; 0].
Definition reviewers_path : list nat := [0; 0; 0; 0; 2; 0].

(** An element with the given tag, classes and children, and nothing
    else. *)
Definition el (tag : string) (classes : list string) (cs : list Node)
  : Element :=
  {| tagName := tag; classList := classes; attributes := [];
     listeners := []; style_display := None; innerText := "";
     childNodes := cs |}.

Fixpoint intersperse {A} (sep : A) (l : list A) : list A :=
  match l with
  | [] => []
  | [x] => [x]
  | x :: l' => x :: sep :: intersperse sep l'
  end.

(** The [span] of one reviewer. *)
Definition reviewerSpan (info : gerrit.ReviewerInfo) : Element :=
  {| tagName := "span";
     classList := [if (gerrit.value info >? 0)%Z then "lgtmreviewer"
                   else "nolgtmreviewer"];
     attributes := []; listeners := []; style_display := None;
     innerText := ""; childNodes := [TextNode (gerrit.name info)] |}.

(** What the callback of the reviewers adds for the entry of the given
    index. *)
Definition reviewerNodes (info : gerrit.ReviewerInfo) (index : nat)
  : list Node :=
  (if 0 <? index then [TextNode ", "] else [])
  ++ [ElementNode (reviewerSpan info)].

(** The content of the reviewers cell. *)
Definition reviewersMarkup (reviewers : list gerrit.ReviewerInfo)
  : list Node :=
  intersperse (TextNode ", ") (ElementNode ∘ reviewerSpan <$> reviewers).

(** The row of a changelist, written out. *)
Definition changelistRow (w : ChangelistWidget.t) : Element :=
  el "div" ["changelist"]
    [ElementNode
       (ChangelistWidget.setHeader w
          (el "div" ["changelistheader"]
             [ElementNode
                (el "table" ["changelisttable"]
                   [ElementNode
                      (el "tr" []
                         [ElementNode (el "td" []
                            [ElementNode (el "div" ["statusmarker"]
                               [ElementNode (el "div"
                                  ["marker";
                                   ChangelistWidget.getSizeCategory w +:+ "size"]
                                  [])])]);
                          ElementNode (el "td" []
                            [ElementNode (el "div" ["author"]
                               [TextNode (ChangelistWidget.getAuthor w)])]);
                          ElementNode (el "td" []
                            [ElementNode (el "div" ["reviewers"]
                               (reviewersMarkup
                                  (ChangelistWidget.getReviewers w)))]);
                          ElementNode (el "td" []
                            [ElementNode (el "div" ["description"]
                               [TextNode (gerrit.getMessage
                                  (ChangelistWidget.getDescription w))])])])])]))].

(** The element of a section, written out.  [addClass] is called with
    ["section"] and then with the class name of the category. *)
Definition sectionElement (data : SectionData) (w : SectionWidget.t)
  : Element :=
  el "div"
     (if decide (className data = "section") then ["section"]
      else ["section"; className data])
     (ElementNode
        (el "div" ["sectionheader"]
            [TextNode (formatHeader data (length (SectionWidget.cls_ w)))])
      :: (ElementNode ∘ changelistRow <$> SectionWidget.cls_ w)).

(** The elements of the sections of a popup widget. *)
Definition sectionNodes (messages : Messages) (w : PopupWidget.t)
  : list Node :=
  omap (λ s, data ← POPUP_SECTION_DATA messages (SectionWidget.attention_ s);
             Some (ElementNode (sectionElement data s)))
       (PopupWidget.sections_ w).

(** A CL record with other status flags. *)
Definition with_flags (unresolved submittable : bool)
    (cl : gerrit.Changelist) : gerrit.Changelist :=
  {| gerrit.getGerritUrl := gerrit.getGerritUrl cl;
     gerrit.getAuthor := gerrit.getAuthor cl;
     gerrit.getSizeCategory := gerrit.getSizeCategory cl;
     gerrit.getReviewers := gerrit.getReviewers cl;
     gerrit.getDescription := gerrit.getDescription cl;
     gerrit.hasUnresolvedComments := unresolved;
     gerrit.isSubmittable := submittable |}.

(** The link of one allowed instance, and the block that the callback of
    [setLoginLinkVisible] adds to the login element. *)
Definition loginLink (instance : gerrit.Instance) : Element :=
  {| tagName := "a"; classList := [];
     attributes := [("target", "_blank"); ("href", gerrit.host instance)];
     listeners := []; style_display := None; innerText := "";
     childNodes := [TextNode (gerrit.instance_name instance)] |}.

Definition loginLinks (instances : list gerrit.Instance) : Element :=
  el "div" []
     (instances ≫= λ instance,
        [ElementNode (loginLink instance); ElementNode (el "br" [] [])]).

(** [Array.prototype.join]. *)
Fixpoint join (sep : string) (l : list string) : string :=
  match l with
  | [] => ""
  | [x] => x
  | x :: l' => x +:+ sep +:+ join sep l'
  end.

(** The number of categories of a map that hold at least one CL. *)
Definition nonEmptyCategories (m : JsMap.t (list gerrit.Changelist)) : nat :=
  length (filter (λ entry, entry.2 ≠ []) m).

(** The element that the next call on a builder acts on: the innermost
    open element, or the attached element when none is open. *)
Definition currentNode (b : DomBuilder.t) : Element :=
  match DomBuilder.stack_ b with
  | [] => DomBuilder.root b
  | e :: _ => e
  end.

(** Further positions in the row of a changelist: the header that takes
    the click, the cell of the author and the cell of the description. *)
Definition header_path : list nat := [0; 0].
Definition author_path : list nat := [0; 0; 0; 0; 1; 0].
Definition description_path : list nat := [0; 0; 0; 0; 3; 0].

(** ** A popup page and sample data *)

(** A page with the six elements that [popup.js] looks up. *)
Definition popup_page : Page :=
  {| elements := list_to_map
       [ ("overlay", createElement "div");
         ("overlay-text", createElement "div");
         ("results", createElement "div");
         ("login", createElement "div");
         ("permissions", createElement "div");
         ("permissions-button", createElement "button") ];
     pending := [] |}.

(** The same page without the button of the permissions panel. *)
Definition page_without_button : Page :=
  {| elements := list_to_map
       [ ("overlay", createElement "div");
         ("overlay-text", createElement "div");
         ("results", createElement "div");
         ("login", createElement "div");
         ("permissions", createElement "div") ];
     pending := [] |}.

Definition sample_cl : gerrit.Changelist :=
  {| gerrit.getGerritUrl := "https://gerrit.example/c/1";
     gerrit.getAuthor := "alice";
     gerrit.getSizeCategory := "small";
     gerrit.getReviewers :=
       [ {| gerrit.name := "A"; gerrit.value := 1 |};
         {| gerrit.name := "B"; gerrit.value := 0 |} ];
     gerrit.getDescription := {| gerrit.getMessage := "Fix the build" |};
     gerrit.hasUnresolvedComments := true;
     gerrit.isSubmittable := true |}.

Definition sample_messages : Messages :=
  {| SECTION_ORDERING := ["first"; "second"; "third"];
     POPUP_SECTION_DATA := λ attention,
       Some {| className := attention;
               formatHeader := λ n, if decide (n = 1) then "one CL"
                                    else "some CLs" |};
     NO_CLS_MESSAGE := "No CLs" |}.

Definition sample_config : Config :=
  {| LOGIN_PROMPT := "log in"; NO_HOST_ALLOWED := "no host" |}.

Definition sample_instance : gerrit.Instance :=
  {| gerrit.host := "https://gerrit.example";
     gerrit.instance_name := "Example" |}.

Definition sample_results : gerrit.SearchResults :=
  {| gerrit.getCategoryMap := [("third", [sample_cl]); ("first", [sample_cl; sample_cl])] |}.

Definition sample_widget : PopupWidget.t :=
  PopupWidget.addSection
    (Some (SectionWidget.create "third" [sample_cl]))
    (PopupWidget.addSection
       (Some (SectionWidget.create "first" [sample_cl; sample_cl]))
       PopupWidget.new).

(** * Properties *)

(** ** Strings *)

Lemma startsWith_spec s search :
  startsWith s search = true ↔ ∃ post, s = search +:+ post.
Proof.
  revert s. induction search as [|c search IH]; intros s; simpl.
  - split; [intros _; by exists s | done].
  - destruct s as [|d s].
    + split; [done | intros [post H]; discriminate H].
    + destruct (decide (c = d)) as [->|Hne].
      * rewrite IH. split; intros [post H]; exists post.
        -- by rewrite H.
        -- by injection H.
      * split; [done | intros [post H]; injection H; congruence].
Qed.

Lemma includes_spec s search :
  includes s search = true ↔ ∃ pre post, s = pre +:+ search +:+ post.
Proof.
  induction s as [|d s IH]; simpl.
  - rewrite orb_false_r, startsWith_spec. split.
    + intros [post H]. by exists "", post.
    + intros [pre [post H]]. destruct pre; [by exists post | discriminate H].
  - rewrite orb_true_iff, startsWith_spec, IH. split.
    + intros [[post H]|[pre [post H]]].
      * by exists "", post.
      * exists (String d pre), post. by rewrite H.
    + intros [pre [post H]]. destruct pre as [|e pre].
      * left. by exists post.
      * right. exists pre, post. by injection H.
Qed.

(** ** The JavaScript map *)

Lemma JsMap_get_Some {V} (m : JsMap.t V) k v :
  JsMap.wf m → JsMap.get m k = Some v ↔ (k, v) ∈ m.
Proof.
  unfold JsMap.wf, JsMap.keys.
  induction m as [|[k' v'] m IH]; simpl; intros Hwf.
  - split; [done | by intros ?%elem_of_nil].
  - apply NoDup_cons in Hwf as [Hk' Hwf]. rewrite elem_of_cons.
    destruct (decide (k' = k)) as [->|Hne].
    + split; [intros [= ->]; by left |].
      intros [[= ->]|Hin]; [done |]. exfalso. apply Hk'.
      apply list_elem_of_fmap. by exists (k, v).
    + rewrite IH by done. split; [by right |].
      intros [[= ? ?]|?]; [congruence | done].
Qed.

Lemma JsMap_has_keys {V} (m : JsMap.t V) k :
  JsMap.has m k = true ↔ k ∈ JsMap.keys m.
Proof.
  unfold JsMap.has, JsMap.keys.
  induction m as [|[k' v'] m IH]; simpl.
  - split; [done | by intros ?%elem_of_nil].
  - rewrite elem_of_cons. destruct (decide (k' = k)) as [->|Hne].
    + split; [by left | done].
    + rewrite IH. split; [by right | intros [?|?]; [congruence | done]].
Qed.

Lemma JsMap_get_Permutation {V} (m m' : JsMap.t V) k :
  JsMap.wf m → m ≡ₚ m' → JsMap.get m' k = JsMap.get m k.
Proof.
  intros Hwf Hp.
  assert (JsMap.wf m') as Hwf'.
  { unfold JsMap.wf, JsMap.keys in *. by rewrite <- Hp. }
  apply option_eq. intros v.
  rewrite !JsMap_get_Some by done. by rewrite Hp.
Qed.

(** ** The builder *)

Lemma withCurrentNode_compose f g b :
  DomBuilder.withCurrentNode g (DomBuilder.withCurrentNode f b)
  = DomBuilder.withCurrentNode (g ∘ f) b.
Proof. destruct b as [r [|e st]]; reflexivity. Qed.

Lemma appendNodes_nil e : appendNodes [] e = e.
Proof. destruct e. unfold appendNodes, set_childNodes. simpl. by rewrite app_nil_r. Qed.

Lemma appendNodes_app ns1 ns2 e :
  appendNodes ns2 (appendNodes ns1 e) = appendNodes (ns1 ++ ns2) e.
Proof. unfold appendNodes, set_childNodes. simpl. by rewrite app_assoc. Qed.

Lemma withCurrentNode_appendNodes_nil b :
  DomBuilder.withCurrentNode (appendNodes []) b = b.
Proof.
  destruct b as [r [|e st]]; unfold DomBuilder.withCurrentNode; simpl;
    by rewrite appendNodes_nil.
Qed.

Lemma withCurrentNode_appendNodes_app ns1 ns2 b :
  DomBuilder.withCurrentNode (appendNodes ns2)
    (DomBuilder.withCurrentNode (appendNodes ns1) b)
  = DomBuilder.withCurrentNode (appendNodes (ns1 ++ ns2)) b.
Proof.
  destruct b as [r [|e st]]; unfold DomBuilder.withCurrentNode; simpl;
    by rewrite appendNodes_app.
Qed.

(** A [forEach] whose callback only adds nodes to the current element adds
    the nodes of all the items, in the order of the list. *)
Lemma forEach_from_appends {A} (g : A → nat → list Node)
    (callback : A → DomBuilder.t → nat → DomBuilder.t) (l : list A) :
  (∀ item b index,
     callback item b index = DomBuilder.withCurrentNode (appendNodes (g item index)) b) →
  ∀ index b,
    DomBuilder.forEach_from index l callback b
    = DomBuilder.withCurrentNode
        (appendNodes (mjoin (imap (λ i item, g item (index + i)) l))) b.
Proof.
  intros Hcb. induction l as [|x l IH]; intros index b; simpl.
  - by rewrite withCurrentNode_appendNodes_nil.
  - rewrite IH, Hcb, withCurrentNode_appendNodes_app.
    rewrite Nat.add_0_r. do 4 f_equal.
    apply imap_ext. intros i y _. simpl. f_equal. lia.
Qed.

(** ** The row of a changelist *)

Lemma string_length_append s t :
  String.length (s +:+ t) = String.length s + String.length t.
Proof.
  induction s as [|c s IH]; [done |].
  change (S (String.length (s +:+ t)) = S (String.length s) + String.length t).
  by rewrite IH.
Qed.

Lemma size_class_not_marker s : s +:+ "size" ≠ "marker".
Proof.
  intros H.
  assert (String.length s = 2) as Hlen.
  { apply (f_equal String.length) in H. rewrite string_length_append in H.
    simpl in H. lia. }
  destruct s as [|a [|b [|c s]]]; try discriminate Hlen.
  cbv in H. discriminate H.
Qed.

Lemma reviewers_flat_map k (l : list gerrit.ReviewerInfo) :
  mjoin (imap (λ i info, reviewerNodes info (S k + i)) l)
  = l ≫= (λ info, [TextNode ", "; ElementNode (reviewerSpan info)]).
Proof.
  revert k. induction l as [|x l IH]; intros k; [done |].
  simpl. f_equal. f_equal.
  transitivity (mjoin (imap (λ i info, reviewerNodes info (S (S k) + i)) l));
    [| apply IH].
  f_equal; apply imap_ext; intros i y _; simpl; f_equal; lia.
Qed.

Lemma reviewers_intersperse (l : list gerrit.ReviewerInfo) :
  mjoin (imap (λ i info, reviewerNodes info (0 + i)) l) = reviewersMarkup l.
Proof.
  destruct l as [|x l]; [done |].
  simpl. unfold reviewersMarkup. simpl.
  change (mjoin (imap ((λ i info, reviewerNodes info i) ∘ S) l))
    with (mjoin (imap (λ i info, reviewerNodes info (S 0 + i)) l)).
  rewrite reviewers_flat_map.
  revert x. induction l as [|y l IH]; intros x; [done |].
  simpl. f_equal. f_equal. apply (IH y).
Qed.

Lemma renderReviewer_appends info b index :
  ChangelistWidget.renderReviewer info b index
  = DomBuilder.withCurrentNode (appendNodes (reviewerNodes info index)) b.
Proof.
  destruct b as [r [|e st]]; destruct index as [|index]; simpl.
  all: unfold ChangelistWidget.renderReviewer, reviewerNodes; simpl.
  all: unfold DomBuilder.end_, DomBuilder.appendText, DomBuilder.addClass,
         DomBuilder.begin, DomBuilder.withCurrentNode; simpl.
  all: unfold appendNodes, appendChild, set_childNodes; simpl.
  all: rewrite <- ?app_assoc; simpl.
  all: try reflexivity.
  all: destruct (gerrit.value info >? 0)%Z; reflexivity.
Qed.

Lemma forEach_reviewers l b :
  DomBuilder.forEach l ChangelistWidget.renderReviewer b
  = DomBuilder.withCurrentNode (appendNodes (reviewersMarkup l)) b.
Proof.
  unfold DomBuilder.forEach.
  rewrite (forEach_from_appends reviewerNodes)
    by (intros; apply renderReviewer_appends).
  by rewrite reviewers_intersperse.
Qed.

Lemma end_begin tag g b :
  DomBuilder.end_ tag (DomBuilder.withCurrentNode g (DomBuilder.begin tag b))
  = DomBuilder.withCurrentNode
      (appendChild (ElementNode (g (createElement tag)))) b.
Proof. destruct b as [r [|e st]]; reflexivity. Qed.

Lemma end_begin_empty tag b :
  DomBuilder.end_ tag (DomBuilder.begin tag b)
  = DomBuilder.withCurrentNode
      (appendChild (ElementNode (createElement tag))) b.
Proof. destruct b as [r [|e st]]; reflexivity. Qed.

(** Rewrites a chain of builder calls into one update of the current
    element. *)
Ltac builder_normalize :=
  unfold DomBuilder.addClass, DomBuilder.appendText, DomBuilder.setAttribute;
  repeat (rewrite ?withCurrentNode_compose, ?end_begin, ?end_begin_empty).

(** Unfolds the updates of an element down to its fields. *)
Ltac element_simpl :=
  unfold compose, appendNodes, appendChild, set_childNodes, classList_add,
    createElement, addEventListener, setAttribute_, el;
  cbn [tagName classList attributes listeners style_display innerText
       childNodes app].

Ltac fresh_class :=
  rewrite ?(decide_False (P := _ ∈ [])) by apply not_elem_of_nil.

Lemma getStatusMarker_eq w : ChangelistWidget.getStatusMarker w = Some "".
Proof. reflexivity. Qed.

Lemma ChangelistWidget_render_appends w b :
  ChangelistWidget.render w b
  = DomBuilder.withCurrentNode (appendChild (ElementNode (changelistRow w))) b.
Proof.
  unfold ChangelistWidget.render. rewrite forEach_reviewers.
  builder_normalize. f_equal.
  unfold changelistRow, ChangelistWidget.setHeader,
    ChangelistWidget.concat_marker.
  rewrite getStatusMarker_eq.
  change (default "undefined" (Some "") +:+ "marker") with "marker".
  element_simpl. fresh_class.
  rewrite (decide_True (P := "marker" ∈ ["marker"])) by apply list_elem_of_here.
  rewrite decide_False; [reflexivity |].
  intros ?%list_elem_of_singleton. by eapply size_class_not_marker.
Qed.

Lemma ChangelistWidget_markup_row w :
  ChangelistWidget_markup w = [ElementNode (changelistRow w)].
Proof.
  unfold ChangelistWidget_markup. by rewrite ChangelistWidget_render_appends.
Qed.

(** ** Sections *)

Lemma SectionWidget_create_fold cls w0 :
  fold_left (λ widget cl,
               SectionWidget.addChangelist (ChangelistWidget.wrap cl) widget)
            cls w0
  = {| SectionWidget.attention_ := SectionWidget.attention_ w0;
       SectionWidget.cls_ :=
         SectionWidget.cls_ w0 ++ (ChangelistWidget.wrap <$> cls) |}.
Proof.
  revert w0. induction cls as [|cl cls IH]; intros w0; simpl.
  - destruct w0. simpl. by rewrite app_nil_r.
  - rewrite IH. simpl. by rewrite <- app_assoc.
Qed.

Lemma SectionWidget_create_eq attention cls :
  SectionWidget.create attention cls
  = {| SectionWidget.attention_ := attention;
       SectionWidget.cls_ := ChangelistWidget.wrap <$> cls |}.
Proof. unfold SectionWidget.create. by rewrite SectionWidget_create_fold. Qed.

Lemma mjoin_singletons {A B} (f : A → B) (l : list A) :
  mjoin (imap (λ (_ : nat) x, [f x]) l) = f <$> l.
Proof. induction l as [|x l IH]; [done |]. simpl. f_equal. apply IH. Qed.

Lemma SectionWidget_render_eq messages w data b :
  POPUP_SECTION_DATA messages (SectionWidget.attention_ w) = Some data →
  SectionWidget.render messages w b
  = Some (DomBuilder.withCurrentNode
            (appendChild (ElementNode (sectionElement data w))) b).
Proof.
  intros Hdata. unfold SectionWidget.render. rewrite Hdata. simpl. f_equal.
  unfold DomBuilder.forEach.
  rewrite (forEach_from_appends (λ cl _, [ElementNode (changelistRow cl)]))
    by (intros; apply ChangelistWidget_render_appends).
  rewrite (mjoin_singletons (ElementNode ∘ changelistRow)).
  builder_normalize. f_equal.
  unfold sectionElement. element_simpl. fresh_class.
  destruct (decide (className data = "section")) as [->|Hne].
  - rewrite decide_True by apply list_elem_of_here. reflexivity.
  - rewrite decide_False; [reflexivity |].
    by intros ?%list_elem_of_singleton.
Qed.

Lemma SectionWidget_render_None messages w b :
  POPUP_SECTION_DATA messages (SectionWidget.attention_ w) = None →
  SectionWidget.render messages w b = None.
Proof. intros Hdata. unfold SectionWidget.render. by rewrite Hdata. Qed.

(** ** The popup widget *)

Lemma PopupWidget_render_eq messages w b :
  Forall (λ s, is_Some (POPUP_SECTION_DATA messages (SectionWidget.attention_ s)))
         (PopupWidget.sections_ w) →
  PopupWidget.render messages w b
  = Some (DomBuilder.withCurrentNode
            (appendNodes (sectionNodes messages w)) b).
Proof.
  destruct w as [ss]. unfold PopupWidget.render, sectionNodes. simpl.
  revert b. induction ss as [|s ss IH]; intros b Hall; simpl.
  - by rewrite withCurrentNode_appendNodes_nil.
  - apply Forall_cons in Hall as [[data Hdata] Hall].
    rewrite (SectionWidget_render_eq _ _ data) by done.
    rewrite IH by done. rewrite Hdata. simpl.
    change (appendChild (ElementNode (sectionElement data s)))
      with (appendNodes [ElementNode (sectionElement data s)]).
    by rewrite withCurrentNode_appendNodes_app.
Qed.

Lemma PopupWidget_render_None messages w b :
  Exists (λ s, POPUP_SECTION_DATA messages (SectionWidget.attention_ s) = None)
         (PopupWidget.sections_ w) →
  PopupWidget.render messages w b = None.
Proof.
  destruct w as [ss]. unfold PopupWidget.render. simpl.
  revert b. induction ss as [|s ss IH]; intros b Hex.
  - by apply Exists_nil in Hex.
  - simpl. destruct (POPUP_SECTION_DATA messages (SectionWidget.attention_ s))
      as [data|] eqn:Hdata.
    + rewrite (SectionWidget_render_eq _ _ data) by done.
      apply IH. apply Exists_cons in Hex as [Hs|Hex]; [congruence | done].
    + by rewrite SectionWidget_render_None.
Qed.

Lemma PopupWidget_markup_eq messages w :
  Forall (λ s, is_Some (POPUP_SECTION_DATA messages (SectionWidget.attention_ s)))
         (PopupWidget.sections_ w) →
  PopupWidget_markup messages w = Some (sectionNodes messages w).
Proof.
  intros Hall. unfold PopupWidget_markup.
  by rewrite PopupWidget_render_eq.
Qed.

Lemma PopupWidget_create_fold (categories : JsMap.t (list gerrit.Changelist))
    (order : list string) w0 :
  forEachM
    (λ attention widget,
       if JsMap.has categories attention then
         cls ← JsMap.get categories attention;
         Some (PopupWidget.addSection
                 (Some (SectionWidget.create attention cls)) widget)
       else Some widget)
    order w0
  = Some {| PopupWidget.sections_ :=
              PopupWidget.sections_ w0
              ++ omap (λ attention,
                         SectionWidget.create attention
                         <$> JsMap.get categories attention) order |}.
Proof.
  revert w0. induction order as [|a order IH]; intros w0; simpl.
  - destruct w0. simpl. by rewrite app_nil_r.
  - unfold JsMap.has. destruct (JsMap.get categories a) as [cls|]; simpl.
    + rewrite IH. simpl. by rewrite <- app_assoc.
    + by rewrite IH.
Qed.

Lemma PopupWidget_create_eq messages results :
  PopupWidget.create messages results
  = Some {| PopupWidget.sections_ :=
              omap (λ attention,
                      SectionWidget.create attention
                      <$> JsMap.get (gerrit.getCategoryMap results) attention)
                   (SECTION_ORDERING messages) |}.
Proof. unfold PopupWidget.create. by rewrite PopupWidget_create_fold. Qed.

Lemma sections_attention (categories : JsMap.t (list gerrit.Changelist))
    (order : list string) :
  SectionWidget.attention_
  <$> omap (λ attention, SectionWidget.create attention
                         <$> JsMap.get categories attention) order
  = filter (λ attention, JsMap.has categories attention) order.
Proof.
  induction order as [|a order IH]; [done |].
  destruct (JsMap.get categories a) as [cls|] eqn:Hget.
  - rewrite filter_cons_True by (unfold JsMap.has; by rewrite Hget).
    rewrite <- IH. cbn [omap list_omap]. rewrite Hget.
    change (SectionWidget.create a <$> Some cls)
      with (Some (SectionWidget.create a cls)).
    cbv iota. rewrite fmap_cons. by rewrite SectionWidget_create_eq.
  - rewrite filter_cons_False by (unfold JsMap.has; rewrite Hget; intros []).
    rewrite <- IH. cbn [omap list_omap]. by rewrite Hget.
Qed.

Lemma sections_count (categories : JsMap.t (list gerrit.Changelist))
    (order : list string) :
  NoDup order → JsMap.wf categories →
  (∀ k, k ∈ JsMap.keys categories → k ∈ order) →
  length (filter (λ attention, JsMap.has categories attention) order)
  = length categories.
Proof.
  intros Hnd Hwf Hsub.
  transitivity (length (JsMap.keys categories));
    [| unfold JsMap.keys; by rewrite length_fmap].
  apply Permutation_length, NoDup_Permutation; [by apply NoDup_filter | done |].
  intros k. rewrite list_elem_of_filter, Is_true_true, JsMap_has_keys.
  split; [by intros [? ?] | intros Hk; split; [done | by apply Hsub]].
Qed.

Lemma nonEmptyCategories_all (categories : JsMap.t (list gerrit.Changelist)) :
  Forall (λ entry, entry.2 ≠ []) categories →
  nonEmptyCategories categories = length categories.
Proof.
  intros Hall. unfold nonEmptyCategories.
  induction Hall as [|e l He Hall IH]; [done |].
  rewrite filter_cons_True by done. simpl. by rewrite IH.
Qed.

(** ** The text and the spans of the reviewers cell *)

Lemma append_nil_r s : s +:+ "" = s.
Proof.
  induction s as [|c s IH]; [done |].
  change (String c (s +:+ "") = String c s). by rewrite IH.
Qed.

Lemma textContent_element e :
  textContent (ElementNode e)
  = foldr (λ n acc, textContent n +:+ acc) "" (childNodes e).
Proof.
  simpl. induction (childNodes e) as [|c l IH]; simpl; [done | by rewrite IH].
Qed.

Lemma textContent_reviewerSpan info :
  textContent (ElementNode (reviewerSpan info)) = gerrit.name info.
Proof. simpl. apply append_nil_r. Qed.

Lemma reviewers_text (l : list gerrit.ReviewerInfo) :
  foldr (λ n acc, textContent n +:+ acc) "" (reviewersMarkup l)
  = join ", " (gerrit.name <$> l).
Proof.
  unfold reviewersMarkup.
  induction l as [|x l IH]; [done |].
  destruct l as [|y l].
  - simpl. by rewrite !append_nil_r.
  - change (foldr (λ n acc, textContent n +:+ acc) ""
              (intersperse (TextNode ", ")
                 (ElementNode ∘ reviewerSpan <$> x :: y :: l)))
      with (textContent (ElementNode (reviewerSpan x)) +:+ ", " +:+
            foldr (λ n acc, textContent n +:+ acc) ""
              (intersperse (TextNode ", ")
                 (ElementNode ∘ reviewerSpan <$> y :: l))).
    rewrite IH, textContent_reviewerSpan. reflexivity.
Qed.

Lemma reviewers_children classes (l : list gerrit.ReviewerInfo) :
  children (el "div" classes (reviewersMarkup l)) = reviewerSpan <$> l.
Proof.
  unfold children, reviewersMarkup. cbn [childNodes el].
  induction l as [|x l IH]; [done |].
  destruct l as [|y l]; [done |].
  change (omap (λ n, match n with
                     | TextNode _ => None
                     | ElementNode c => Some c
                     end)
            (intersperse (TextNode ", ")
               (ElementNode ∘ reviewerSpan <$> x :: y :: l)))
    with (reviewerSpan x
          :: omap (λ n, match n with
                        | TextNode _ => None
                        | ElementNode c => Some c
                        end)
               (intersperse (TextNode ", ")
                  (ElementNode ∘ reviewerSpan <$> y :: l))).
  by rewrite IH.
Qed.

Lemma reviewerSpan_lgtm info :
  "lgtmreviewer" ∈ classList (reviewerSpan info) ↔ (0 < gerrit.value info)%Z.
Proof.
  unfold reviewerSpan. cbn [classList].
  destruct (Z.gtb_spec (gerrit.value info) 0) as [Hpos|Hle].
  - split; [done | intros _; apply list_elem_of_here].
  - split; [| lia]. intros [=]%list_elem_of_singleton.
Qed.

Lemma reviewerSpan_nolgtm info :
  "nolgtmreviewer" ∈ classList (reviewerSpan info)
  ↔ ¬ (0 < gerrit.value info)%Z.
Proof.
  unfold reviewerSpan. cbn [classList].
  destruct (Z.gtb_spec (gerrit.value info) 0) as [Hpos|Hle].
  - split; [| done]. intros [=]%list_elem_of_singleton.
  - split; [lia | intros _; apply list_elem_of_here].
Qed.

(** * The claims *)

(** C10. [addSection(null)] leaves the section list of a popup widget as it
    is, [addSection(s)] with a section [s] puts [s] at the end of the list,
    and [getSections] returns that list. *)
Theorem addSection_appends_or_ignores (w : PopupWidget.t) :
  PopupWidget.getSections w = PopupWidget.sections_ w ∧
  PopupWidget.addSection None w = w ∧
  PopupWidget.getSections (PopupWidget.addSection None w)
  = PopupWidget.getSections w ∧
  ∀ s, PopupWidget.getSections (PopupWidget.addSection (Some s) w)
       = PopupWidget.getSections w ++ [s].
Proof. repeat split. Qed.

(** C6. [getStatusMarker] returns the empty string for every wrapped CL
    record, whatever its [hasUnresolvedComments] and [isSubmittable] flags:
    the statements after [return ''] are never reached.  The class given to
    the status marker is ["" + "marker"], so the marker element of a
    rendered row carries the classes ["marker"] and the size class only,
    and the row does not depend on the two flags. *)
Theorem getStatusMarker_always_empty (w : ChangelistWidget.t) :
  ChangelistWidget.getStatusMarker w = Some "" ∧
  (∀ unresolved submittable,
     ChangelistWidget.getStatusMarker
       (ChangelistWidget.wrap
          (with_flags unresolved submittable (ChangelistWidget.cl_ w)))
     = Some "") ∧
  ChangelistWidget.concat_marker (ChangelistWidget.getStatusMarker w) "marker"
  = "marker" ∧
  (∃ marker,
     descend marker_path
       (appendNodes (ChangelistWidget_markup w) (createElement "div"))
     = Some marker ∧
     classList marker
     = ["marker"; ChangelistWidget.getSizeCategory w +:+ "size"]) ∧
  (∀ unresolved submittable builder,
     ChangelistWidget.render
       (ChangelistWidget.wrap
          (with_flags unresolved submittable (ChangelistWidget.cl_ w)))
       builder
     = ChangelistWidget.render w builder).
Proof.
  split; [reflexivity |]. split; [reflexivity |]. split; [reflexivity |].
  split.
  - rewrite ChangelistWidget_markup_row. eexists. split; reflexivity.
  - intros unresolved submittable builder.
    rewrite !ChangelistWidget_render_appends. reflexivity.
Qed.

(** The example of the specification: the reviewers [A] (value 1) and [B]
    (value 0) give the text ["A, B"], with [A] approved and [B] not. *)
Example reviewers_cell_sample :
  (λ cell, (textContent (ElementNode cell), classList <$> children cell))
  <$> descend reviewers_path
        (appendNodes (ChangelistWidget_markup (ChangelistWidget.wrap sample_cl))
                     (createElement "div"))
  = Some ("A, B", [["lgtmreviewer"]; ["nolgtmreviewer"]]).
Proof. vm_compute. reflexivity. Qed.

(** C5. The reviewers cell of a rendered changelist holds one [span] per
    reviewer, in input order, with the text [", "] between two consecutive
    spans and nowhere else; its text is the names joined by [", "]; the
    span of a reviewer holds the reviewer's name and is marked approved
    (class [lgtmreviewer]) exactly when the approval value is strictly
    positive, and not approved (class [nolgtmreviewer]) otherwise. *)
Theorem reviewers_cell_joined (w : ChangelistWidget.t) :
  ∃ cell,
    descend reviewers_path
      (appendNodes (ChangelistWidget_markup w) (createElement "div"))
    = Some cell ∧
    classList cell = ["reviewers"] ∧
    childNodes cell
    = intersperse (TextNode ", ")
        (ElementNode ∘ reviewerSpan <$> ChangelistWidget.getReviewers w) ∧
    children cell = reviewerSpan <$> ChangelistWidget.getReviewers w ∧
    textContent (ElementNode cell)
    = join ", " (gerrit.name <$> ChangelistWidget.getReviewers w) ∧
    ∀ info,
      textContent (ElementNode (reviewerSpan info)) = gerrit.name info ∧
      ("lgtmreviewer" ∈ classList (reviewerSpan info)
       ↔ (0 < gerrit.value info)%Z) ∧
      ("nolgtmreviewer" ∈ classList (reviewerSpan info)
       ↔ ¬ (0 < gerrit.value info)%Z).
Proof.
  rewrite ChangelistWidget_markup_row.
  exists (el "div" ["reviewers"]
            (reviewersMarkup (ChangelistWidget.getReviewers w))).
  split; [reflexivity |]. split; [reflexivity |]. split; [reflexivity |].
  split; [apply reviewers_children |].
  split; [rewrite textContent_element; apply reviewers_text |].
  intros info. split; [apply textContent_reviewerSpan |].
  split; [apply reviewerSpan_lgtm | apply reviewerSpan_nolgtm].
Qed.

Lemma rows_markup (cls : list gerrit.Changelist) :
  cls ≫= (λ cl, ChangelistWidget_markup (ChangelistWidget.wrap cl))
  = ElementNode ∘ changelistRow <$> (ChangelistWidget.wrap <$> cls).
Proof.
  induction cls as [|cl cls IH]; [done |].
  rewrite bind_cons, IH, ChangelistWidget_markup_row. reflexivity.
Qed.

Lemma children_element_nodes {A} (f : A → Element) (l : list A)
    tag classes h :
  children (el tag classes (ElementNode h :: (ElementNode ∘ f <$> l)))
  = h :: (f <$> l).
Proof.
  unfold children. cbn [childNodes el omap list_omap]. f_equal.
  induction l as [|x l IH]; [done |].
  rewrite !fmap_cons. cbn [omap list_omap compose]. by rewrite IH.
Qed.

(** C4. [SectionWidget.create] wraps each CL record into a
    [ChangelistWidget] and keeps the input order: the section holds as many
    child widgets as there are records, the child of index [i] wraps the
    record of index [i], and, after its header, [render] emits the rows of
    the children in that same order. *)
Theorem SectionWidget_create_preserves_order (messages : Messages)
    (attention : string) (cls : list gerrit.Changelist) :
  SectionWidget.attention_ (SectionWidget.create attention cls) = attention ∧
  SectionWidget.cls_ (SectionWidget.create attention cls)
  = ChangelistWidget.wrap <$> cls ∧
  length (SectionWidget.cls_ (SectionWidget.create attention cls))
  = length cls ∧
  (∀ i, SectionWidget.cls_ (SectionWidget.create attention cls) !! i
        = ChangelistWidget.wrap <$> cls !! i) ∧
  ∀ data container,
    POPUP_SECTION_DATA messages attention = Some data →
    ∃ section,
      SectionWidget.render messages (SectionWidget.create attention cls)
        (DomBuilder.attach container)
      = Some (DomBuilder.attach
                (appendChild (ElementNode section) container)) ∧
      childNodes section
      = ElementNode (el "div" ["sectionheader"]
                        [TextNode (formatHeader data (length cls))])
        :: (cls ≫= λ cl, ChangelistWidget_markup (ChangelistWidget.wrap cl)) ∧
      drop 1 (children section)
      = changelistRow ∘ ChangelistWidget.wrap <$> cls.
Proof.
  rewrite SectionWidget_create_eq. cbn [SectionWidget.attention_ SectionWidget.cls_].
  split; [done |]. split; [done |]. split; [by rewrite length_fmap |].
  split; [intros i; by rewrite list_lookup_fmap |].
  intros data container Hdata.
  exists (sectionElement data
            {| SectionWidget.attention_ := attention;
               SectionWidget.cls_ := ChangelistWidget.wrap <$> cls |}).
  split; [by rewrite (SectionWidget_render_eq _ _ data) |].
  unfold sectionElement. cbn [SectionWidget.cls_]. split.
  - cbn [childNodes el]. by rewrite rows_markup, length_fmap.
  - rewrite children_element_nodes. cbn [drop].
    by rewrite <- list_fmap_compose.
Qed.

Lemma SectionWidget_create_preserves_order_witness :
  ∃ section,
    SectionWidget.render sample_messages
      (SectionWidget.create "first" [sample_cl; with_flags false false sample_cl])
      (DomBuilder.attach (createElement "div"))
    = Some (DomBuilder.attach
              (appendChild (ElementNode section) (createElement "div"))) ∧
    childNodes section
    = ElementNode (el "div" ["sectionheader"] [TextNode "some CLs"])
      :: ([sample_cl; with_flags false false sample_cl]
          ≫= λ cl, ChangelistWidget_markup (ChangelistWidget.wrap cl)) ∧
    drop 1 (children section)
    = changelistRow ∘ ChangelistWidget.wrap
      <$> [sample_cl; with_flags false false sample_cl].
Proof.
  destruct (SectionWidget_create_preserves_order sample_messages "first"
              [sample_cl; with_flags false false sample_cl])
    as (_ & _ & _ & _ & Hrender).
  exact (Hrender {| className := "first";
                    formatHeader := λ n, if decide (n = 1) then "one CL"
                                         else "some CLs" |}
                 (createElement "div") eq_refl).
Defined.

(** C1 (as amended). For every [SearchResults], [PopupWidget.create]
    returns a widget with exactly one section for each entry of
    [SECTION_ORDERING] that is a key of the category map, in the order of
    [SECTION_ORDERING], whether the list of that category is empty or not;
    each section is [SectionWidget.create] of the category and its list.  A
    category that is not a key of the map never produces a section.  The
    widget is the same for every ordering of the entries of the map.  When
    [SECTION_ORDERING] has no duplicates and lists every key of the map,
    the widget has as many sections as the map has keys, which is the
    number of non-empty categories when no list of the map is empty. *)
Theorem PopupWidget_create_sections (messages : Messages)
    (results : gerrit.SearchResults) :
  ∃ widget,
    PopupWidget.create messages results = Some widget ∧
    PopupWidget.getSections widget
    = omap (λ attention,
              SectionWidget.create attention
              <$> JsMap.get (gerrit.getCategoryMap results) attention)
           (SECTION_ORDERING messages) ∧
    SectionWidget.attention_ <$> PopupWidget.getSections widget
    = filter (λ attention,
                JsMap.has (gerrit.getCategoryMap results) attention)
             (SECTION_ORDERING messages) ∧
    (∀ s, s ∈ PopupWidget.getSections widget →
          SectionWidget.attention_ s ∈ SECTION_ORDERING messages ∧
          SectionWidget.attention_ s
          ∈ JsMap.keys (gerrit.getCategoryMap results)) ∧
    (∀ attention,
       attention ∉ JsMap.keys (gerrit.getCategoryMap results) →
       ∀ s, s ∈ PopupWidget.getSections widget →
            SectionWidget.attention_ s ≠ attention) ∧
    (∀ results',
       JsMap.wf (gerrit.getCategoryMap results) →
       gerrit.getCategoryMap results ≡ₚ gerrit.getCategoryMap results' →
       PopupWidget.create messages results' = Some widget) ∧
    (NoDup (SECTION_ORDERING messages) →
     JsMap.wf (gerrit.getCategoryMap results) →
     (∀ k, k ∈ JsMap.keys (gerrit.getCategoryMap results) →
           k ∈ SECTION_ORDERING messages) →
     length (PopupWidget.getSections widget)
     = length (gerrit.getCategoryMap results) ∧
     (Forall (λ entry, entry.2 ≠ []) (gerrit.getCategoryMap results) →
      length (PopupWidget.getSections widget)
      = nonEmptyCategories (gerrit.getCategoryMap results))).
Proof.
  eexists. split; [apply PopupWidget_create_eq |].
  unfold PopupWidget.getSections. cbn [PopupWidget.sections_].
  assert (∀ s,
    s ∈ omap (λ attention,
                SectionWidget.create attention
                <$> JsMap.get (gerrit.getCategoryMap results) attention)
             (SECTION_ORDERING messages) →
    SectionWidget.attention_ s ∈ SECTION_ORDERING messages ∧
    SectionWidget.attention_ s ∈ JsMap.keys (gerrit.getCategoryMap results))
    as Hin.
  { intros s Hs.
    assert (SectionWidget.attention_ s
            ∈ filter (λ attention,
                        JsMap.has (gerrit.getCategoryMap results) attention)
                     (SECTION_ORDERING messages)) as Ha.
    { rewrite <- sections_attention. by apply list_elem_of_fmap_2. }
    apply list_elem_of_filter in Ha as [Hhas Hord].
    split; [done |]. by apply JsMap_has_keys, Is_true_true. }
  split; [done |]. split; [apply sections_attention |].
  split; [done |].
  split.
  { intros attention Habs s Hs Heq. apply Habs. rewrite <- Heq.
    by apply Hin. }
  split.
  - intros results' Hwf Hperm. rewrite PopupWidget_create_eq.
    do 2 f_equal. apply list_omap_ext, Forall2_same_length_lookup.
    split; [done |]. intros i a a' Ha Ha'.
    assert (a' = a) as -> by congruence.
    by rewrite (JsMap_get_Permutation (gerrit.getCategoryMap results)).
  - intros Hnd Hwf Hsub.
    assert (length (omap (λ attention,
                SectionWidget.create attention
                <$> JsMap.get (gerrit.getCategoryMap results) attention)
             (SECTION_ORDERING messages))
            = length (gerrit.getCategoryMap results)) as Hlen.
    { rewrite <- (length_fmap SectionWidget.attention_), sections_attention.
      by apply sections_count. }
    split; [done |]. intros Hall. by rewrite nonEmptyCategories_all.
Qed.

Lemma PopupWidget_create_sections_witness :
  ∃ widget,
    PopupWidget.create sample_messages sample_results = Some widget ∧
    SectionWidget.attention_ <$> PopupWidget.getSections widget
    = ["first"; "third"] ∧
    PopupWidget.create sample_messages
      {| gerrit.getCategoryMap :=
           [("first", [sample_cl; sample_cl]); ("third", [sample_cl])] |}
    = Some widget ∧
    length (PopupWidget.getSections widget) = 2 ∧
    nonEmptyCategories (gerrit.getCategoryMap sample_results) = 2.
Proof.
  destruct (PopupWidget_create_sections sample_messages sample_results)
    as (widget & Hcreate & _ & Hattention & _ & _ & Hperm & Hcount).
  assert (JsMap.wf (gerrit.getCategoryMap sample_results)) as Hwf.
  { apply (bool_decide_unpack _). vm_compute. reflexivity. }
  exists widget. split; [exact Hcreate |]. split; [exact Hattention |].
  split.
  { apply Hperm; [exact Hwf |]. apply Permutation_swap. }
  destruct Hcount as [Hlen Hnonempty].
  - apply (bool_decide_unpack _). vm_compute. reflexivity.
  - exact Hwf.
  - apply Forall_forall. apply (bool_decide_unpack _). vm_compute. reflexivity.
  - split; [exact Hlen |]. rewrite <- Hnonempty; [exact Hlen |].
    apply (bool_decide_unpack _). vm_compute. reflexivity.
Defined.

(** C1 as stated fails on a category whose list is empty: the map below
    holds no non-empty category (K = 0), and [create] still returns a
    section for its key. *)
Lemma PopupWidget_create_empty_category :
  nonEmptyCategories (gerrit.getCategoryMap
                        {| gerrit.getCategoryMap := [("first", [])] |}) = 0 ∧
  PopupWidget.create sample_messages
    {| gerrit.getCategoryMap := [("first", [])] |}
  = Some {| PopupWidget.sections_ :=
              [ {| SectionWidget.attention_ := "first";
                   SectionWidget.cls_ := [] |} ] |} ∧
  ¬ (∀ widget,
       PopupWidget.create sample_messages
         {| gerrit.getCategoryMap := [("first", [])] |} = Some widget →
       length (PopupWidget.getSections widget)
       = nonEmptyCategories (gerrit.getCategoryMap
                               {| gerrit.getCategoryMap := [("first", [])] |})).
Proof.
  split; [reflexivity |]. split; [reflexivity |].
  intros H. specialize (H _ eq_refl). discriminate H.
Qed.

(** ** Computations on the page *)

Lemma bind_Some {A B} (m : Js A) (k : A → Js B) p x p' :
  m p = Some (x, p') → (m ≫= k) p = k x p'.
Proof. intros H. unfold mbind, Js_bind. by rewrite H. Qed.

Lemma bind_None {A B} (m : Js A) (k : A → Js B) p :
  m p = None → (m ≫= k) p = None.
Proof. intros H. unfold mbind, Js_bind. by rewrite H. Qed.

Lemma removeChildren_all cs e :
  childNodes e = cs → removeChildren cs e = set_childNodes [] e.
Proof.
  revert e. induction cs as [|c cs IH]; intros e He.
  - destruct e. simpl in *. by subst.
  - simpl. by rewrite IH.
Qed.

Lemma renderLoginLinks_eq instances login :
  renderLoginLinks instances login
  = appendChild (ElementNode (loginLinks instances)) login.
Proof.
  unfold renderLoginLinks, DomBuilder.forEach.
  rewrite (forEach_from_appends
             (λ instance _, [ElementNode (loginLink instance);
                             ElementNode (el "br" [] [])])).
  - assert (∀ k (l : list gerrit.Instance),
      mjoin (imap (λ i instance,
                     (λ (_ : nat), [ElementNode (loginLink instance);
                                    ElementNode (el "br" [] [])]) (k + i)) l)
      = l ≫= λ instance, [ElementNode (loginLink instance);
                           ElementNode (el "br" [] [])]) as Hjoin.
    { intros k l. revert k. induction l as [|x l IH]; intros k; [done |].
      rewrite bind_cons. simpl. do 2 f_equal. apply (IH (S k)). }
    rewrite (Hjoin 0). builder_normalize. reflexivity.
  - intros instance b index. builder_normalize.
    destruct b as [r [|e st]]; unfold DomBuilder.withCurrentNode, loginLink;
      cbn [DomBuilder.stack_ DomBuilder.root]; element_simpl;
      cbn [assoc_set]; rewrite decide_False by done;
      rewrite <- app_assoc; reflexivity.
Qed.

(** Unfolds the functions of the popup down to lookups and updates of the
    elements of the page. *)
Ltac js_unfold :=
  unfold displayError, setOverlayVisible, setLoginLinkVisible,
    setGrantPermissionsButtonVisible, setElementVisibility, setOverlayText,
    fetchAllowedInstances_then, mbind, mret, Js_bind, Js_ret, browser.update.

(** Resolves the next lookup of an element, given what the page held. *)
Ltac js_lookup H :=
  cbn [elements pending]; rewrite ?lookup_insert_ne by done;
  rewrite ?lookup_insert_eq; rewrite ?H; cbn [elements pending negb].

(** Reads an element of a page that was updated. *)
Ltac map_lookup :=
  cbn [elements pending];
  repeat (rewrite lookup_insert_eq || rewrite lookup_insert_ne by done).

Lemma setOverlayVisible_true_Some p o r :
  elements p !! "overlay" = Some o →
  elements p !! "results" = Some r →
  setOverlayVisible true p
  = Some ((), {| elements :=
                   <["results" := set_style_display (Some "none") r]>
                     (<["overlay" := set_style_display None o]> (elements p));
                 pending := pending p |}).
Proof. intros Ho Hr. js_unfold. js_lookup Ho. js_lookup Hr. reflexivity. Qed.

Lemma setOverlayVisible_true_None p :
  elements p !! "overlay" = None ∨ elements p !! "results" = None →
  setOverlayVisible true p = None.
Proof.
  intros H. js_unfold.
  destruct (elements p !! "overlay") as [o|] eqn:Ho; [| done].
  destruct H as [H|Hr]; [done |]. by js_lookup Hr.
Qed.

Lemma setOverlayVisible_false_Some p o r pm login :
  elements p !! "overlay" = Some o →
  elements p !! "results" = Some r →
  elements p !! "permissions" = Some pm →
  elements p !! "login" = Some login →
  setOverlayVisible false p
  = Some ((), {| elements :=
                   <["login" := set_style_display (Some "none") login]>
                     (<["permissions" := set_style_display (Some "none") pm]>
                        (<["results" := set_style_display None r]>
                           (<["overlay" := set_style_display (Some "none") o]>
                              (elements p))));
                 pending := pending p |}).
Proof.
  intros Ho Hr Hpm Hl. js_unfold.
  js_lookup Ho. js_lookup Hr. js_lookup Hpm. js_lookup Hl. reflexivity.
Qed.

Lemma setLoginLinkVisible_true_Some p login :
  elements p !! "login" = Some login →
  setLoginLinkVisible true p
  = Some ((), {| elements :=
                   <["login" :=
                       set_childNodes [] (set_style_display None login)]>
                     (elements p);
                 pending := pending p ++ [PopulateLogin] |}).
Proof.
  intros Hl. js_unfold. js_lookup Hl. js_lookup Hl.
  rewrite insert_insert_eq. by rewrite removeChildren_all.
Qed.

Lemma setLoginLinkVisible_false_Some p login :
  elements p !! "login" = Some login →
  setLoginLinkVisible false p
  = Some ((), {| elements :=
                   <["login" := set_style_display (Some "none") login]>
                     (elements p);
                 pending := pending p |}).
Proof. intros Hl. js_unfold. js_lookup Hl. reflexivity. Qed.

Lemma settle_PopulateLogin instances p login :
  pending p = [PopulateLogin] →
  elements p !! "login" = Some login →
  settle 0 (Fulfilled instances) p
  = Some ((), {| elements :=
                   <["login" :=
                       appendChild (ElementNode (loginLinks instances)) login]>
                     (elements p);
                 pending := [] |}).
Proof.
  intros Hp Hl. unfold settle. rewrite Hp. cbn [lookup list_lookup delete list_delete].
  unfold run. js_unfold. js_lookup Hl. by rewrite renderLoginLinks_eq.
Qed.

(** One display of the login links on a page where no population waits:
    whatever the login element held, it ends with the links of the
    instances and nothing else. *)
Lemma login_links_replaced instances p login :
  pending p = [] →
  elements p !! "login" = Some login →
  ∃ p1 p2,
    setLoginLinkVisible true p = Some ((), p1) ∧
    settle 0 (Fulfilled instances) p1 = Some ((), p2) ∧
    pending p2 = [] ∧
    elements p2 !! "login"
    = Some (set_childNodes [ElementNode (loginLinks instances)]
              (set_style_display None login)) ∧
    ∀ identifier, identifier ≠ "login" →
                  elements p2 !! identifier = elements p !! identifier.
Proof.
  intros Hp Hl. eexists _, _.
  split; [by apply setLoginLinkVisible_true_Some |].
  split.
  { apply settle_PopulateLogin; cbn [elements pending].
    - by rewrite Hp.
    - apply lookup_insert_eq. }
  split; [done |]. split; [by map_lookup |].
  intros identifier Hne. by map_lookup.
Qed.

(** C7. Showing the overlay is idempotent: on every page, two calls of
    [setOverlayVisible(true)] in a row end in the same state as one call
    (the states of all the elements, hence the visibility of the overlay,
    of the results container, of the login panel and of the permissions
    button); on a page that has the overlay and the results container the
    call succeeds and a second call changes nothing. *)
Theorem setOverlayVisible_true_idempotent (p : Page) :
  (setOverlayVisible true;; setOverlayVisible true) p
  = setOverlayVisible true p ∧
  (is_Some (elements p !! "overlay") →
   is_Some (elements p !! "results") →
   ∃ p1, setOverlayVisible true p = Some ((), p1) ∧
         setOverlayVisible true p1 = Some ((), p1)).
Proof.
  assert (∀ o r,
    elements p !! "overlay" = Some o → elements p !! "results" = Some r →
    ∃ p1, setOverlayVisible true p = Some ((), p1) ∧
          setOverlayVisible true p1 = Some ((), p1)) as Hsome.
  { intros o r Ho Hr. eexists. split; [by apply setOverlayVisible_true_Some |].
    erewrite setOverlayVisible_true_Some; [| by map_lookup | by map_lookup].
    cbn [elements pending]. do 3 f_equal.
    apply map_eq. intros i.
    destruct (decide (i = "results")) as [->|Hres];
      [map_lookup; reflexivity |].
    destruct (decide (i = "overlay")) as [->|Hov];
      [map_lookup; reflexivity |].
    rewrite !lookup_insert_ne by congruence. reflexivity. }
  split.
  - destruct (elements p !! "overlay") as [o|] eqn:Ho;
      [destruct (elements p !! "results") as [r|] eqn:Hr |].
    + destruct (Hsome o r eq_refl eq_refl) as (p1 & H1 & H2).
      rewrite (bind_Some _ _ _ _ _ H1). by rewrite H1, H2.
    + rewrite (setOverlayVisible_true_None p) by by right.
      by apply bind_None, setOverlayVisible_true_None; right.
    + rewrite (setOverlayVisible_true_None p) by by left.
      by apply bind_None, setOverlayVisible_true_None; left.
  - intros [o Ho] [r Hr]. by apply (Hsome o r).
Qed.

Lemma setOverlayVisible_true_idempotent_witness :
  ∃ p1, setOverlayVisible true popup_page = Some ((), p1) ∧
        setOverlayVisible true p1 = Some ((), p1).
Proof.
  destruct (setOverlayVisible_true_idempotent popup_page) as [_ H].
  apply H; vm_compute; eexists; reflexivity.
Defined.

(** C8. Hiding the overlay does more than showing it.
    [setOverlayVisible(false)] hides the overlay, shows the results
    container and hides both the login panel (element [login]) and the
    grant-permissions panel (element [permissions]).
    [setOverlayVisible(true)] shows the overlay and hides the results
    container, and leaves every other element, the login panel and the
    permissions panel among them, as it was.  Either call changes nothing
    but the [display] style of the elements named, and registers no
    callback. *)
Theorem setOverlayVisible_frame (p : Page) :
  (∀ o r pm login,
     elements p !! "overlay" = Some o →
     elements p !! "results" = Some r →
     elements p !! "permissions" = Some pm →
     elements p !! "login" = Some login →
     ∃ p',
       setOverlayVisible false p = Some ((), p') ∧
       elements p' !! "overlay" = Some (set_style_display (Some "none") o) ∧
       elements p' !! "results" = Some (set_style_display None r) ∧
       elements p' !! "permissions"
       = Some (set_style_display (Some "none") pm) ∧
       elements p' !! "login" = Some (set_style_display (Some "none") login) ∧
       visible <$> elements p' !! "overlay" = Some false ∧
       visible <$> elements p' !! "results" = Some true ∧
       visible <$> elements p' !! "permissions" = Some false ∧
       visible <$> elements p' !! "login" = Some false ∧
       (∀ identifier,
          identifier ∉ ["overlay"; "results"; "permissions"; "login"] →
          elements p' !! identifier = elements p !! identifier) ∧
       pending p' = pending p) ∧
  (∀ o r,
     elements p !! "overlay" = Some o →
     elements p !! "results" = Some r →
     ∃ p',
       setOverlayVisible true p = Some ((), p') ∧
       elements p' !! "overlay" = Some (set_style_display None o) ∧
       elements p' !! "results" = Some (set_style_display (Some "none") r) ∧
       visible <$> elements p' !! "overlay" = Some true ∧
       visible <$> elements p' !! "results" = Some false ∧
       (∀ identifier,
          identifier ∉ ["overlay"; "results"] →
          elements p' !! identifier = elements p !! identifier) ∧
       elements p' !! "login" = elements p !! "login" ∧
       elements p' !! "permissions" = elements p !! "permissions" ∧
       pending p' = pending p).
Proof.
  split.
  - intros o r pm login Ho Hr Hpm Hl. eexists.
    split; [by apply setOverlayVisible_false_Some |].
    repeat split; try by map_lookup.
    intros identifier Hid. cbn [elements].
    rewrite !lookup_insert_ne; [done | | | |];
      intros <-; apply Hid; set_solver.
  - intros o r Ho Hr. eexists.
    split; [by apply setOverlayVisible_true_Some |].
    repeat split; try by map_lookup.
    intros identifier Hid. cbn [elements].
    rewrite !lookup_insert_ne; [done | |];
      intros <-; apply Hid; set_solver.
Qed.

Lemma setOverlayVisible_frame_witness :
  (∃ p',
     setOverlayVisible false popup_page = Some ((), p') ∧
     visible <$> elements p' !! "overlay" = Some false ∧
     visible <$> elements p' !! "results" = Some true ∧
     visible <$> elements p' !! "permissions" = Some false ∧
     visible <$> elements p' !! "login" = Some false ∧
     elements p' !! "permissions-button"
     = elements popup_page !! "permissions-button") ∧
  (∃ p',
     setOverlayVisible true popup_page = Some ((), p') ∧
     visible <$> elements p' !! "overlay" = Some true ∧
     visible <$> elements p' !! "results" = Some false ∧
     elements p' !! "login" = elements popup_page !! "login" ∧
     elements p' !! "permissions" = elements popup_page !! "permissions").
Proof.
  destruct (setOverlayVisible_frame popup_page) as [Hhide Hshow]. split.
  - destruct (Hhide (createElement "div") (createElement "div")
                (createElement "div") (createElement "div"))
      as (p' & Hrun & _ & _ & _ & _ & Ho & Hr & Hpm & Hl & Hother & _);
      [reflexivity | reflexivity | reflexivity | reflexivity |].
    exists p'. repeat split; try assumption.
    apply Hother. apply (bool_decide_unpack _). vm_compute. reflexivity.
  - destruct (Hshow (createElement "div") (createElement "div"))
      as (p' & Hrun & _ & _ & Ho & Hr & _ & Hl & Hpm & _);
      [reflexivity | reflexivity |].
    exists p'. repeat split; assumption.
Defined.

(** C2. [displayError(error)] sets the overlay text to [String(error)] and
    shows the overlay.  The login panel ends visible exactly when that
    string includes the login-prompt marker, and the grant-permissions
    panel (element [permissions]) exactly when it includes the
    no-host-allowed marker; the two tests are independent, both made on the
    same string, so both panels are shown when both markers occur and
    neither is (only the text shows) when neither occurs.  [includes] is
    the substring test. *)
Theorem displayError_panels (config : Config) (error : JsValue) (p : Page)
    (text overlay results login permissions button : Element) :
  elements p !! "overlay-text" = Some text →
  elements p !! "overlay" = Some overlay →
  elements p !! "results" = Some results →
  elements p !! "login" = Some login →
  elements p !! "permissions" = Some permissions →
  elements p !! "permissions-button" = Some button →
  ∃ p',
    displayError config error p = Some ((), p') ∧
    innerText <$> elements p' !! "overlay-text" = Some (String_ error) ∧
    visible <$> elements p' !! "overlay" = Some true ∧
    visible <$> elements p' !! "results" = Some false ∧
    visible <$> elements p' !! "login"
    = Some (includes (String_ error) (LOGIN_PROMPT config)) ∧
    visible <$> elements p' !! "permissions"
    = Some (includes (String_ error) (NO_HOST_ALLOWED config)) ∧
    (visible <$> elements p' !! "login" = Some true
     ↔ ∃ pre post, String_ error = pre +:+ LOGIN_PROMPT config +:+ post) ∧
    (visible <$> elements p' !! "permissions" = Some true
     ↔ ∃ pre post, String_ error = pre +:+ NO_HOST_ALLOWED config +:+ post).
Proof.
  intros Ht Ho Hr Hl Hpm Hb.
  assert (∃ p',
    displayError config error p = Some ((), p') ∧
    innerText <$> elements p' !! "overlay-text" = Some (String_ error) ∧
    visible <$> elements p' !! "overlay" = Some true ∧
    visible <$> elements p' !! "results" = Some false ∧
    visible <$> elements p' !! "login"
    = Some (includes (String_ error) (LOGIN_PROMPT config)) ∧
    visible <$> elements p' !! "permissions"
    = Some (includes (String_ error) (NO_HOST_ALLOWED config)))
    as (p' & Hrun & Htext & Hov & Hres & Hlogin & Hperm).
  { js_unfold. js_lookup Ht. js_lookup Ho. js_lookup Hr. js_lookup Hl.
    destruct (includes (String_ error) (LOGIN_PROMPT config));
      cbn [negb]; js_lookup Hl; js_lookup Hpm;
      destruct (includes (String_ error) (NO_HOST_ALLOWED config));
      js_lookup Hb; rewrite ?removeChildren_all by done;
      (eexists; split; [reflexivity |]);
      repeat split; map_lookup; reflexivity. }
  exists p'. repeat (split; [assumption |]).
  rewrite Hlogin, Hperm, <- !includes_spec.
  split; (split; [by intros [=] | by intros ->]).
Qed.

Lemma displayError_panels_witness :
  ∃ p',
    displayError sample_config (JsError "Error" "please log in") popup_page
    = Some ((), p') ∧
    innerText <$> elements p' !! "overlay-text"
    = Some "Error: please log in" ∧
    visible <$> elements p' !! "overlay" = Some true ∧
    visible <$> elements p' !! "login" = Some true ∧
    visible <$> elements p' !! "permissions" = Some false.
Proof.
  destruct (displayError_panels sample_config
              (JsError "Error" "please log in") popup_page
              (createElement "div") (createElement "div")
              (createElement "div") (createElement "div")
              (createElement "div") (createElement "button"))
    as (p' & Hrun & Htext & Hov & _ & Hlogin & Hperm & _);
    [reflexivity | reflexivity | reflexivity | reflexivity | reflexivity
    | reflexivity |].
  exists p'. repeat split; assumption.
Defined.

(** C3. [renderWidget]: for a widget without sections, the overlay text
    becomes [NO_CLS_MESSAGE] followed by ['.'], the overlay is shown and
    the results container is hidden, nothing being rendered into it; for a
    widget with at least one section, the markup of the widget is added to
    the results container, which is shown, and the overlay is hidden. *)
Theorem renderWidget_overlay_or_results (messages : Messages)
    (widget : PopupWidget.t) (p : Page) :
  (∀ text overlay results,
     PopupWidget.getSections widget = [] →
     elements p !! "overlay-text" = Some text →
     elements p !! "overlay" = Some overlay →
     elements p !! "results" = Some results →
     ∃ p',
       renderWidget messages widget p = Some ((), p') ∧
       innerText <$> elements p' !! "overlay-text"
       = Some (NO_CLS_MESSAGE messages +:+ ".") ∧
       visible <$> elements p' !! "overlay" = Some true ∧
       visible <$> elements p' !! "results" = Some false ∧
       childNodes <$> elements p' !! "results" = Some (childNodes results)) ∧
  (∀ overlay results permissions login,
     PopupWidget.getSections widget ≠ [] →
     Forall (λ s, is_Some (POPUP_SECTION_DATA messages
                             (SectionWidget.attention_ s)))
            (PopupWidget.getSections widget) →
     elements p !! "overlay" = Some overlay →
     elements p !! "results" = Some results →
     elements p !! "permissions" = Some permissions →
     elements p !! "login" = Some login →
     ∃ p' markup,
       renderWidget messages widget p = Some ((), p') ∧
       PopupWidget_markup messages widget = Some markup ∧
       childNodes <$> elements p' !! "results"
       = Some (childNodes results ++ markup) ∧
       visible <$> elements p' !! "results" = Some true ∧
       visible <$> elements p' !! "overlay" = Some false).
Proof.
  split.
  - intros text overlay results Hnil Ht Ho Hr. unfold renderWidget.
    rewrite Hnil. rewrite bool_decide_true by done.
    js_unfold. js_lookup Ht. js_lookup Ho. js_lookup Hr.
    eexists. split; [reflexivity |]. repeat split; map_lookup; reflexivity.
  - intros overlay results permissions login Hne Hdata Ho Hr Hpm Hl.
    unfold renderWidget.
    rewrite bool_decide_false by (by destruct (PopupWidget.getSections widget)).
    eexists _, (sectionNodes messages widget). split.
    { erewrite bind_Some;
        [| cbv beta; rewrite Hr; cbn [mbind option_bind];
           rewrite PopupWidget_render_eq by done; reflexivity].
      cbn [DomBuilder.withCurrentNode DomBuilder.attach DomBuilder.stack_
           DomBuilder.root].
      by rewrite (setOverlayVisible_false_Some _ overlay
                    (appendNodes (sectionNodes messages widget) results)
                    permissions login) by by map_lookup. }
    split; [by apply PopupWidget_markup_eq |].
    repeat split; map_lookup; reflexivity.
Qed.

Lemma renderWidget_overlay_or_results_witness :
  (∃ p',
     renderWidget sample_messages PopupWidget.new popup_page = Some ((), p') ∧
     innerText <$> elements p' !! "overlay-text" = Some "No CLs." ∧
     visible <$> elements p' !! "overlay" = Some true ∧
     visible <$> elements p' !! "results" = Some false) ∧
  (∃ p' markup,
     renderWidget sample_messages sample_widget popup_page = Some ((), p') ∧
     PopupWidget_markup sample_messages sample_widget = Some markup ∧
     childNodes <$> elements p' !! "results" = Some ([] ++ markup) ∧
     visible <$> elements p' !! "results" = Some true ∧
     visible <$> elements p' !! "overlay" = Some false).
Proof.
  split.
  - destruct (renderWidget_overlay_or_results sample_messages PopupWidget.new
                popup_page) as [Hempty _].
    destruct (Hempty (createElement "div") (createElement "div")
                (createElement "div"))
      as (p' & Hrun & Htext & Hov & Hres & _);
      [reflexivity | reflexivity | reflexivity | reflexivity |].
    exists p'. repeat split; assumption.
  - destruct (renderWidget_overlay_or_results sample_messages sample_widget
                popup_page) as [_ Hsections].
    apply (Hsections (createElement "div") (createElement "div")
             (createElement "div") (createElement "div"));
      [discriminate | | reflexivity | reflexivity | reflexivity | reflexivity].
    apply Forall_forall. intros s _. by eexists.
Defined.

Lemma loginLinks_one_per_instance (instances : list gerrit.Instance) :
  filter (λ e, tagName e = "a") (children (loginLinks instances))
  = loginLink <$> instances.
Proof.
  unfold children, loginLinks. cbn [childNodes el].
  induction instances as [|instance instances IH]; [done |].
  rewrite bind_cons, fmap_cons. cbn [app omap list_omap].
  rewrite filter_cons_True by done. rewrite filter_cons_False by done.
  by rewrite IH.
Qed.

(** C9 (as amended). [setLoginLinkVisible(true)] shows the login element,
    removes all the children that it has and registers the callback that
    will add one link per allowed instance; nothing else changes.  When no
    earlier population is still waiting, the login element holds, once the
    callback has run, the links of the instances and nothing else, so that
    a later display, made after that run, does not add to the links of the
    former one but replaces them.  [setLoginLinkVisible(false)] hides the
    element, leaves its children as they are and registers nothing. *)
Theorem setLoginLinkVisible_clears_children (p : Page) (login : Element) :
  elements p !! "login" = Some login →
  (∃ p1,
     setLoginLinkVisible true p = Some ((), p1) ∧
     elements p1 !! "login"
     = Some (set_childNodes [] (set_style_display None login)) ∧
     childNodes <$> elements p1 !! "login" = Some [] ∧
     visible <$> elements p1 !! "login" = Some true ∧
     (∀ identifier, identifier ≠ "login" →
                    elements p1 !! identifier = elements p !! identifier) ∧
     pending p1 = pending p ++ [PopulateLogin] ∧
     (pending p = [] →
      ∀ instances,
        ∃ p2,
          settle 0 (Fulfilled instances) p1 = Some ((), p2) ∧
          pending p2 = [] ∧
          childNodes <$> elements p2 !! "login"
          = Some [ElementNode (loginLinks instances)] ∧
          filter (λ e, tagName e = "a") (children (loginLinks instances))
          = loginLink <$> instances ∧
          ∀ instances',
            ∃ p3 p4,
              setLoginLinkVisible true p2 = Some ((), p3) ∧
              settle 0 (Fulfilled instances') p3 = Some ((), p4) ∧
              childNodes <$> elements p4 !! "login"
              = Some [ElementNode (loginLinks instances')])) ∧
  (∃ p1,
     setLoginLinkVisible false p = Some ((), p1) ∧
     elements p1 !! "login" = Some (set_style_display (Some "none") login) ∧
     childNodes <$> elements p1 !! "login" = Some (childNodes login) ∧
     visible <$> elements p1 !! "login" = Some false ∧
     (∀ identifier, identifier ≠ "login" →
                    elements p1 !! identifier = elements p !! identifier) ∧
     pending p1 = pending p).
Proof.
  intros Hl. split.
  - eexists. split; [by apply setLoginLinkVisible_true_Some |].
    split; [by map_lookup |]. split; [by map_lookup |].
    split; [by map_lookup |].
    split; [intros identifier Hne; by map_lookup |].
    split; [done |].
    intros Hp instances.
    destruct (login_links_replaced instances p login Hp Hl)
      as (p1 & p2 & Hshow & Hsettle & Hp2 & Hl2 & _).
    rewrite (setLoginLinkVisible_true_Some p login) in Hshow by done.
    injection Hshow as <-.
    exists p2. split; [done |]. split; [done |].
    split; [by rewrite Hl2 |].
    split; [apply loginLinks_one_per_instance |].
    intros instances'.
    destruct (login_links_replaced instances' p2 _ Hp2 Hl2)
      as (p3 & p4 & Hshow' & Hsettle' & _ & Hl4 & _).
    exists p3, p4. split; [done |]. split; [done |]. by rewrite Hl4.
  - eexists. split; [by apply setLoginLinkVisible_false_Some |].
    split; [by map_lookup |]. split; [by map_lookup |].
    split; [by map_lookup |].
    split; [intros identifier Hne; by map_lookup | done].
Qed.

Lemma setLoginLinkVisible_clears_children_witness :
  (∃ p1,
     setLoginLinkVisible true popup_page = Some ((), p1) ∧
     childNodes <$> elements p1 !! "login" = Some [] ∧
     ∃ p2,
       settle 0 (Fulfilled [sample_instance]) p1 = Some ((), p2) ∧
       childNodes <$> elements p2 !! "login"
       = Some [ElementNode (loginLinks [sample_instance])]) ∧
  (∃ p1,
     setLoginLinkVisible false popup_page = Some ((), p1) ∧
     childNodes <$> elements p1 !! "login" = Some []).
Proof.
  destruct (setLoginLinkVisible_clears_children popup_page
              (createElement "div") eq_refl) as [Hshow Hhide]. split.
  - destruct Hshow as (p1 & Hrun & _ & Hnone & _ & _ & _ & Hsettle).
    exists p1. split; [exact Hrun |]. split; [exact Hnone |].
    destruct (Hsettle eq_refl [sample_instance])
      as (p2 & Hrun2 & _ & Hlinks & _).
    exists p2. split; [exact Hrun2 | exact Hlinks].
  - destruct Hhide as (p1 & Hrun & _ & Hsame & _).
    exists p1. split; [exact Hrun | exact Hsame].
Defined.

(** C9 as stated fails when a second error is displayed before the
    callback of the first display has run: each call clears the login
    element at once, and both callbacks then add their links. *)
Lemma login_links_accumulate :
  (λ r, childNodes <$> elements r.2 !! "login")
  <$> (displayError sample_config (JsStr "please log in");;
       displayError sample_config (JsStr "please log in");;
       settle 0 (Fulfilled [sample_instance]);;
       settle 0 (Fulfilled [sample_instance])) popup_page
  = Some (Some [ElementNode (loginLinks [sample_instance]);
                ElementNode (loginLinks [sample_instance])]).
Proof. vm_compute. reflexivity. Qed.

(** * Further properties of [popup.js] *)

(** ** Rendering *)

Lemma currentNode_withCurrentNode f b :
  currentNode (DomBuilder.withCurrentNode f b) = f (currentNode b) ∧
  tail (DomBuilder.stack_ (DomBuilder.withCurrentNode f b))
  = tail (DomBuilder.stack_ b) ∧
  length (DomBuilder.stack_ (DomBuilder.withCurrentNode f b))
  = length (DomBuilder.stack_ b) ∧
  (DomBuilder.stack_ b ≠ [] →
   DomBuilder.root (DomBuilder.withCurrentNode f b) = DomBuilder.root b).
Proof. destruct b as [r [|e st]]; repeat split; done. Qed.

(** X1. [ChangelistWidget.render] is balanced and only appends: on every
    builder, whatever is open, it leaves the same elements open, adds its
    row after the children that the current element already has, and
    changes nothing else of the current element nor of the elements below
    it; the row is the one that it renders into an empty container. *)
Theorem ChangelistWidget_render_only_appends (w : ChangelistWidget.t)
    (b : DomBuilder.t) :
  childNodes (currentNode (ChangelistWidget.render w b))
  = childNodes (currentNode b) ++ ChangelistWidget_markup w ∧
  length (ChangelistWidget_markup w) = 1 ∧
  length (DomBuilder.stack_ (ChangelistWidget.render w b))
  = length (DomBuilder.stack_ b) ∧
  tail (DomBuilder.stack_ (ChangelistWidget.render w b))
  = tail (DomBuilder.stack_ b) ∧
  (DomBuilder.stack_ b ≠ [] →
   DomBuilder.root (ChangelistWidget.render w b) = DomBuilder.root b) ∧
  tagName (currentNode (ChangelistWidget.render w b))
  = tagName (currentNode b) ∧
  classList (currentNode (ChangelistWidget.render w b))
  = classList (currentNode b) ∧
  attributes (currentNode (ChangelistWidget.render w b))
  = attributes (currentNode b) ∧
  listeners (currentNode (ChangelistWidget.render w b))
  = listeners (currentNode b) ∧
  style_display (currentNode (ChangelistWidget.render w b))
  = style_display (currentNode b).
Proof.
  rewrite ChangelistWidget_render_appends, ChangelistWidget_markup_row.
  destruct (currentNode_withCurrentNode
              (appendChild (ElementNode (changelistRow w))) b)
    as (-> & Htail & Hlen & Hroot).
  repeat split; done.
Qed.

(** X2. The row of a changelist: its header carries one listener, a
    [click] listener that opens the Gerrit URL of the CL, and the row
    element itself carries none; the author cell holds the author, the description cell the message
    of the description; the text of the row is the author, the reviewers
    joined by [", "] and the message, in that order. *)
Theorem changelist_row_cells (w : ChangelistWidget.t) :
  ∃ row header author description,
    ChangelistWidget_markup w = [ElementNode row] ∧
    tagName row = "div" ∧ classList row = ["changelist"] ∧
    listeners row = [] ∧
    descend header_path (appendNodes (ChangelistWidget_markup w)
                                     (createElement "div")) = Some header ∧
    classList header = ["changelistheader"] ∧
    listeners header = [("click", OpenUrl (ChangelistWidget.getGerritUrl w))] ∧
    descend author_path (appendNodes (ChangelistWidget_markup w)
                                     (createElement "div")) = Some author ∧
    classList author = ["author"] ∧
    childNodes author = [TextNode (ChangelistWidget.getAuthor w)] ∧
    descend description_path (appendNodes (ChangelistWidget_markup w)
                                          (createElement "div"))
    = Some description ∧
    classList description = ["description"] ∧
    childNodes description
    = [TextNode (gerrit.getMessage (ChangelistWidget.getDescription w))] ∧
    textContent (ElementNode row)
    = ChangelistWidget.getAuthor w
      +:+ join ", " (gerrit.name <$> ChangelistWidget.getReviewers w)
      +:+ gerrit.getMessage (ChangelistWidget.getDescription w).
Proof.
  rewrite ChangelistWidget_markup_row.
  eexists (changelistRow w), _, _, _.
  repeat (split; [reflexivity |]).
  unfold changelistRow, ChangelistWidget.setHeader.
  repeat (rewrite textContent_element;
          cbn [childNodes el addEventListener foldr textContent]).
  rewrite reviewers_text, !append_nil_r. reflexivity.
Qed.

(** X3. [SectionWidget.render] throws exactly when [POPUP_SECTION_DATA]
    has no entry for the category of the section.  Otherwise it adds one
    [div] to the current element: its classes are ["section"] and the
    class name of the category, its first child is the header, whose text
    is [formatHeader] of the number of CLs of the section, and a section
    without CLs still renders, as a header alone. *)
Theorem SectionWidget_render_header (messages : Messages)
    (w : SectionWidget.t) (b : DomBuilder.t) :
  (SectionWidget.render messages w b = None
   ↔ POPUP_SECTION_DATA messages (SectionWidget.attention_ w) = None) ∧
  ∀ data,
    POPUP_SECTION_DATA messages (SectionWidget.attention_ w) = Some data →
    ∃ section header,
      SectionWidget.render messages w b
      = Some (DomBuilder.withCurrentNode
                (appendChild (ElementNode section)) b) ∧
      tagName section = "div" ∧
      (∀ c, c ∈ classList section ↔ c = "section" ∨ c = className data) ∧
      NoDup (classList section) ∧
      head (children section) = Some header ∧
      classList header = ["sectionheader"] ∧
      textContent (ElementNode header)
      = formatHeader data (length (SectionWidget.cls_ w)) ∧
      length (children section) = S (length (SectionWidget.cls_ w)) ∧
      (SectionWidget.cls_ w = [] → children section = [header]).
Proof.
  split.
  - destruct (POPUP_SECTION_DATA messages (SectionWidget.attention_ w))
      as [data|] eqn:Hdata.
    + rewrite (SectionWidget_render_eq _ _ data) by done. split; discriminate.
    + by rewrite SectionWidget_render_None.
  - intros data Hdata.
    exists (sectionElement data w),
      (el "div" ["sectionheader"]
          [TextNode (formatHeader data (length (SectionWidget.cls_ w)))]).
    split; [by apply SectionWidget_render_eq |].
    split; [done |]. unfold sectionElement.
    rewrite children_element_nodes. cbn [classList el].
    destruct (decide (className data = "section")) as [Heq|Hne].
    + split; [| split; [apply NoDup_singleton |]].
      * intros c. rewrite list_elem_of_singleton, Heq. tauto.
      * split; [done |]. split; [done |].
        split; [apply append_nil_r |].
        split; [cbn [length]; by rewrite length_fmap |].
        by intros ->.
    + split; [| split].
      * intros c. rewrite !elem_of_cons, elem_of_nil. tauto.
      * apply NoDup_cons. split; [| apply NoDup_singleton].
        intros Hin%list_elem_of_singleton. by apply Hne.
      * split; [done |]. split; [done |].
        split; [apply append_nil_r |].
        split; [cbn [length]; by rewrite length_fmap |].
        by intros ->.
Qed.

Lemma SectionWidget_render_header_witness :
  ∃ section header,
    SectionWidget.render sample_messages (SectionWidget.create "first" [])
      (DomBuilder.attach (createElement "div"))
    = Some (DomBuilder.withCurrentNode
              (appendChild (ElementNode section))
              (DomBuilder.attach (createElement "div"))) ∧
    children section = [header] ∧
    textContent (ElementNode header) = "some CLs".
Proof.
  destruct (SectionWidget_render_header sample_messages
              (SectionWidget.create "first" [])
              (DomBuilder.attach (createElement "div"))) as [_ H].
  destruct (H {| className := "first";
                 formatHeader := λ n, if decide (n = 1) then "one CL"
                                      else "some CLs" |} eq_refl)
    as (section & header & Hrun & _ & _ & _ & _ & _ & Htext & _ & Hempty).
  exists section, header. split; [exact Hrun |].
  split; [exact (Hempty eq_refl) | exact Htext].
Defined.

Lemma forEachM_app {A S} (f : A → S → option S) (l1 l2 : list A) (s : S) :
  forEachM f (l1 ++ l2) s = forEachM f l1 s ≫= forEachM f l2.
Proof.
  revert s. induction l1 as [|x l1 IH]; intros s; [done |].
  simpl. destruct (f x s) as [s'|]; [apply IH | done].
Qed.

(** X4. [PopupWidget.render] throws exactly when [POPUP_SECTION_DATA]
    lacks the category of one of the sections, and then none of the later
    sections matters.  When it returns, it has added, after the children
    that the current element had, one node per section, in the order of
    the sections, each being what [SectionWidget.render] emits for that
    section, and the same elements are open as before.  A widget without
    sections leaves the builder as it is. *)
Theorem PopupWidget_render_sections (messages : Messages)
    (w : PopupWidget.t) (b : DomBuilder.t) :
  (PopupWidget.render messages w b = None
   ↔ Exists (λ s, POPUP_SECTION_DATA messages (SectionWidget.attention_ s)
                  = None)
            (PopupWidget.getSections w)) ∧
  (∀ b',
     PopupWidget.render messages w b = Some b' →
     ∃ nodes,
       PopupWidget_markup messages w = Some nodes ∧
       childNodes (currentNode b') = childNodes (currentNode b) ++ nodes ∧
       Forall2 (λ s node, SectionWidget_markup messages s = Some [node])
               (PopupWidget.getSections w) nodes ∧
       length (DomBuilder.stack_ b') = length (DomBuilder.stack_ b) ∧
       tail (DomBuilder.stack_ b') = tail (DomBuilder.stack_ b)) ∧
  (PopupWidget.getSections w = [] →
   PopupWidget.render messages w b = Some b).
Proof.
  assert (Forall (λ s, is_Some (POPUP_SECTION_DATA messages
                                  (SectionWidget.attention_ s)))
                 (PopupWidget.sections_ w)
          ∨ Exists (λ s, POPUP_SECTION_DATA messages
                           (SectionWidget.attention_ s) = None)
                   (PopupWidget.sections_ w)) as Hcases.
  { induction (PopupWidget.sections_ w) as [|s ss IH]; [left; constructor |].
    destruct (POPUP_SECTION_DATA messages (SectionWidget.attention_ s))
      as [data|] eqn:Hdata; [| right; by left].
    destruct IH as [Hall|Hex]; [left | right; by right].
    constructor; [by rewrite Hdata | done]. }
  unfold PopupWidget.getSections. split; [| split].
  - destruct Hcases as [Hall|Hex].
    + rewrite PopupWidget_render_eq by done. split; [discriminate |].
      intros Hex. exfalso. apply Exists_exists in Hex as (s & Hs & Hnone).
      rewrite Forall_forall in Hall. destruct (Hall s Hs) as [data Hdata].
      congruence.
    + by rewrite PopupWidget_render_None.
  - intros b' Hrun. destruct Hcases as [Hall|Hex];
      [| by rewrite PopupWidget_render_None in Hrun].
    rewrite PopupWidget_render_eq in Hrun by done. injection Hrun as <-.
    exists (sectionNodes messages w).
    split; [by apply PopupWidget_markup_eq |].
    destruct (currentNode_withCurrentNode
                (appendNodes (sectionNodes messages w)) b)
      as (-> & Htail & Hlen & _).
    split; [done |]. split; [| done].
    unfold sectionNodes.
    induction Hall as [|s ss [data Hdata] Hall IH]; [constructor |].
    cbn [omap list_omap]. rewrite Hdata. cbn [mbind option_bind].
    constructor; [| apply IH].
    unfold SectionWidget_markup.
    by rewrite (SectionWidget_render_eq _ _ data).
  - intros Hnil. unfold PopupWidget.render. by rewrite Hnil.
Qed.

Lemma PopupWidget_render_sections_witness :
  ∃ nodes,
    PopupWidget_markup sample_messages sample_widget = Some nodes ∧
    Forall2 (λ s node, SectionWidget_markup sample_messages s = Some [node])
            (PopupWidget.getSections sample_widget) nodes ∧
    PopupWidget.render sample_messages PopupWidget.new
      (DomBuilder.attach (createElement "div"))
    = Some (DomBuilder.attach (createElement "div")).
Proof.
  destruct (PopupWidget_render_sections sample_messages sample_widget
              (DomBuilder.attach (createElement "div")))
    as (_ & Hsome & _).
  destruct (PopupWidget_render_sections sample_messages PopupWidget.new
              (DomBuilder.attach (createElement "div")))
    as (_ & _ & Hnil).
  edestruct Hsome as (nodes & Hmarkup & _ & Hnodes & _);
    [vm_compute; reflexivity |].
  exists nodes. split; [exact Hmarkup |]. split; [exact Hnodes |].
  exact (Hnil eq_refl).
Defined.

(** X5. Rendering follows the construction of the widget: the popup
    widget with one more section renders as the widget did and then
    renders the new section, into the builder that the former left;
    adding [null] changes nothing of what is rendered. *)
Theorem PopupWidget_render_addSection (messages : Messages)
    (w : PopupWidget.t) (s : SectionWidget.t) (b : DomBuilder.t) :
  PopupWidget.render messages (PopupWidget.addSection (Some s) w) b
  = PopupWidget.render messages w b ≫= SectionWidget.render messages s ∧
  PopupWidget.render messages (PopupWidget.addSection None w) b
  = PopupWidget.render messages w b.
Proof.
  split; [| done]. unfold PopupWidget.render, PopupWidget.addSection.
  cbn [PopupWidget.sections_]. rewrite forEachM_app.
  destruct (forEachM _ (PopupWidget.sections_ w) b) as [b'|]; [| done].
  cbn [mbind option_bind forEachM].
  by destruct (SectionWidget.render messages s b').
Qed.

(** ** Visibility of the panels *)

(** X6. [setElementVisibility] throws when the page has no element of the
    given identifier.  Otherwise the element ends visible exactly when
    [visible] is true; only its [display] style changes, no other element
    and no pending callback is touched; and of two calls in a row on the
    same identifier only the last one counts, on every page. *)
Theorem setElementVisibility_last_wins (identifier : string)
    (v1 v2 : bool) (p : Page) :
  (setElementVisibility identifier v1;; setElementVisibility identifier v2) p
  = setElementVisibility identifier v2 p ∧
  (elements p !! identifier = None →
   setElementVisibility identifier v1 p = None) ∧
  ∀ e,
    elements p !! identifier = Some e →
    ∃ p' e',
      setElementVisibility identifier v1 p = Some ((), p') ∧
      elements p' !! identifier = Some e' ∧
      visible e' = v1 ∧
      e' = set_style_display (style_display e') e ∧
      (∀ other, other ≠ identifier →
                elements p' !! other = elements p !! other) ∧
      pending p' = pending p.
Proof.
  split; [| split].
  - js_unfold. destruct (elements p !! identifier) as [e|] eqn:He; [| done].
    cbn [elements pending]. rewrite lookup_insert_eq.
    by rewrite insert_insert_eq.
  - intros Hnone. js_unfold. by rewrite Hnone.
  - intros e He. js_unfold. rewrite He. eexists _, _.
    split; [reflexivity |]. cbn [elements pending].
    split; [apply lookup_insert_eq |].
    split; [by destruct v1 |]. split; [done |].
    split; [| done]. intros other Hne. by rewrite lookup_insert_ne.
Qed.

Lemma setElementVisibility_last_wins_witness :
  setElementVisibility "nowhere" true popup_page = None ∧
  ∃ p' e',
    setElementVisibility "login" false popup_page = Some ((), p') ∧
    elements p' !! "login" = Some e' ∧
    visible e' = false.
Proof.
  destruct (setElementVisibility_last_wins "nowhere" true true popup_page)
    as (_ & Hnone & _).
  destruct (setElementVisibility_last_wins "login" false true popup_page)
    as (_ & _ & Hsome).
  split; [apply Hnone; reflexivity |].
  destruct (Hsome (createElement "div") eq_refl)
    as (p' & e' & Hrun & He' & Hvis & _).
  exists p', e'. repeat split; assumption.
Defined.

(** X7. [setGrantPermissionsButtonVisible(false)] hides the permissions
    panel and never looks the button up, so it succeeds on a page without
    the button.  [setGrantPermissionsButtonVisible(true)] shows the panel
    and throws when the button is missing; otherwise it adds a [click]
    listener that opens the options page after the listeners that the
    button already has, so that a second call registers the listener a
    second time. *)
Theorem setGrantPermissionsButtonVisible_listeners (p : Page)
    (permissions : Element) :
  elements p !! "permissions" = Some permissions →
  (∃ p',
     setGrantPermissionsButtonVisible false p = Some ((), p') ∧
     elements p'
     = <["permissions" := set_style_display (Some "none") permissions]>
         (elements p) ∧
     pending p' = pending p) ∧
  (elements p !! "permissions-button" = None →
   setGrantPermissionsButtonVisible true p = None) ∧
  ∀ button,
    elements p !! "permissions-button" = Some button →
    (∃ p',
       setGrantPermissionsButtonVisible true p = Some ((), p') ∧
       visible <$> elements p' !! "permissions" = Some true ∧
       elements p' !! "permissions-button"
       = Some (addEventListener "click" OpenOptionsPage button) ∧
       listeners <$> elements p' !! "permissions-button"
       = Some (listeners button ++ [("click", OpenOptionsPage)]) ∧
       (∀ other, other ≠ "permissions" → other ≠ "permissions-button" →
                 elements p' !! other = elements p !! other) ∧
       pending p' = pending p) ∧
    (∃ p'',
       (setGrantPermissionsButtonVisible true;;
        setGrantPermissionsButtonVisible true) p = Some ((), p'') ∧
       listeners <$> elements p'' !! "permissions-button"
       = Some (listeners button
               ++ [("click", OpenOptionsPage); ("click", OpenOptionsPage)])).
Proof.
  intros Hpm. split; [| split].
  - js_unfold. js_lookup Hpm. by eexists.
  - intros Hnone. js_unfold. js_lookup Hpm. by js_lookup Hnone.
  - intros button Hb. split.
    + js_unfold. js_lookup Hpm. js_lookup Hb. eexists.
      split; [reflexivity |]. cbn [elements pending].
      split; [by map_lookup |]. split; [by map_lookup |].
      split; [by map_lookup |]. split; [| done].
      intros other Hne1 Hne2. by rewrite !lookup_insert_ne.
    + js_unfold. js_lookup Hpm. js_lookup Hb. js_lookup Hpm. js_lookup Hb.
      eexists. split; [reflexivity |]. map_lookup.
      cbn [fmap option_fmap option_map listeners addEventListener].
      by rewrite <- app_assoc.
Qed.

Lemma setGrantPermissionsButtonVisible_listeners_witness :
  ∃ p'',
    (setGrantPermissionsButtonVisible true;;
     setGrantPermissionsButtonVisible true) popup_page = Some ((), p'') ∧
    listeners <$> elements p'' !! "permissions-button"
    = Some ([] ++ [("click", OpenOptionsPage); ("click", OpenOptionsPage)]).
Proof.
  destruct (setGrantPermissionsButtonVisible_listeners popup_page
              (createElement "div") eq_refl) as (_ & _ & H).
  destruct (H (createElement "button") eq_refl) as [_ Htwice].
  exact Htwice.
Defined.





(** ** Errors and results *)

(** X9. [displayError] looks the permissions button up only when the
    error text holds the no-host-allowed marker: without the marker it
    succeeds on a page that has no such button and leaves the button, if
    any, as it is; with the marker it throws when the button is missing.
    When it succeeds without the marker, the children of the results
    container are kept (the container is only hidden), a callback is
    registered exactly when the login marker occurs, and the children of
    the login element are removed in that case and kept otherwise. *)
Theorem displayError_button_only_when_needed (config : Config)
    (error : JsValue) (p : Page)
    (text overlay results login permissions : Element) :
  elements p !! "overlay-text" = Some text →
  elements p !! "overlay" = Some overlay →
  elements p !! "results" = Some results →
  elements p !! "login" = Some login →
  elements p !! "permissions" = Some permissions →
  (includes (String_ error) (NO_HOST_ALLOWED config) = false →
   ∃ p',
     displayError config error p = Some ((), p') ∧
     elements p' !! "permissions-button" = elements p !! "permissions-button" ∧
     childNodes <$> elements p' !! "results" = Some (childNodes results) ∧
     pending p'
     = pending p ++ (if includes (String_ error) (LOGIN_PROMPT config)
                     then [PopulateLogin] else []) ∧
     childNodes <$> elements p' !! "login"
     = Some (if includes (String_ error) (LOGIN_PROMPT config)
             then [] else childNodes login)) ∧
  (includes (String_ error) (NO_HOST_ALLOWED config) = true →
   elements p !! "permissions-button" = None →
   displayError config error p = None).
Proof.
  intros Ht Ho Hr Hl Hpm. split.
  - intros Hno. js_unfold. rewrite Hno.
    js_lookup Ht. js_lookup Ho. js_lookup Hr. js_lookup Hl.
    destruct (includes (String_ error) (LOGIN_PROMPT config));
      cbn [negb]; js_lookup Hl; js_lookup Hpm;
      rewrite ?removeChildren_all by done;
      (eexists; split; [reflexivity |]).
    + repeat split; by map_lookup.
    + cbn [pending]. rewrite app_nil_r. repeat split; by map_lookup.
  - intros Hyes Hnone. js_unfold. rewrite Hyes.
    js_lookup Ht. js_lookup Ho. js_lookup Hr. js_lookup Hl.
    destruct (includes (String_ error) (LOGIN_PROMPT config));
      cbn [negb]; js_lookup Hl; js_lookup Hpm; by js_lookup Hnone.
Qed.

Lemma displayError_button_only_when_needed_witness :
  (∃ p',
     displayError sample_config (JsStr "timeout")
       page_without_button = Some ((), p') ∧
     childNodes <$> elements p' !! "results" = Some [] ∧
     pending p' = [] ++ []) ∧
  displayError sample_config (JsStr "no host allowed") page_without_button
  = None.
Proof.
  split.
  - destruct (displayError_button_only_when_needed sample_config
                (JsStr "timeout")
                page_without_button
                (createElement "div") (createElement "div")
                (createElement "div") (createElement "div")
                (createElement "div")
                eq_refl eq_refl eq_refl eq_refl eq_refl) as [H _].
    destruct (H eq_refl) as (p' & Hrun & _ & Hres & Hpend & _).
    exists p'. repeat split; assumption.
  - destruct (displayError_button_only_when_needed sample_config
                (JsStr "no host allowed")
                page_without_button
                (createElement "div") (createElement "div")
                (createElement "div") (createElement "div")
                (createElement "div")
                eq_refl eq_refl eq_refl eq_refl eq_refl) as [_ H].
    exact (H eq_refl eq_refl).
Defined.

Lemma renderWidget_nil_Some messages widget p text overlay results :
  PopupWidget.getSections widget = [] →
  elements p !! "overlay-text" = Some text →
  elements p !! "overlay" = Some overlay →
  elements p !! "results" = Some results →
  renderWidget messages widget p
  = Some ((), {| elements :=
                   <["results" := set_style_display (Some "none") results]>
                     (<["overlay" := set_style_display None overlay]>
                        (<["overlay-text" :=
                             set_innerText (NO_CLS_MESSAGE messages +:+ ".")
                                           text]> (elements p)));
                 pending := pending p |}).
Proof.
  intros Hnil Ht Ho Hr. unfold renderWidget.
  rewrite Hnil, bool_decide_true by done.
  js_unfold. js_lookup Ht. js_lookup Ho. js_lookup Hr. reflexivity.
Qed.

Lemma renderWidget_sections_Some messages widget p overlay results
    permissions login :
  PopupWidget.getSections widget ≠ [] →
  Forall (λ s, is_Some (POPUP_SECTION_DATA messages
                          (SectionWidget.attention_ s)))
         (PopupWidget.getSections widget) →
  elements p !! "overlay" = Some overlay →
  elements p !! "results" = Some results →
  elements p !! "permissions" = Some permissions →
  elements p !! "login" = Some login →
  renderWidget messages widget p
  = Some ((), {| elements :=
                   <["login" := set_style_display (Some "none") login]>
                     (<["permissions" :=
                          set_style_display (Some "none") permissions]>
                        (<["results" :=
                             set_style_display None
                               (appendNodes (sectionNodes messages widget)
                                            results)]>
                           (<["overlay" :=
                                set_style_display (Some "none") overlay]>
                              (<["results" :=
                                   appendNodes (sectionNodes messages widget)
                                               results]> (elements p)))));
                 pending := pending p |}).
Proof.
  intros Hne Hdata Ho Hr Hpm Hl. unfold renderWidget.
  rewrite bool_decide_false by (by destruct (PopupWidget.getSections widget)).
  erewrite bind_Some;
    [| cbv beta; rewrite Hr; cbn [mbind option_bind];
       rewrite PopupWidget_render_eq by done; reflexivity].
  cbn [DomBuilder.withCurrentNode DomBuilder.attach DomBuilder.stack_
       DomBuilder.root].
  by rewrite (setOverlayVisible_false_Some _ overlay
                (appendNodes (sectionNodes messages widget) results)
                permissions login) by by map_lookup.
Qed.

Lemma create_no_sections messages results widget :
  PopupWidget.create messages results = Some widget →
  (PopupWidget.getSections widget = []
   ↔ ∀ a, a ∈ SECTION_ORDERING messages →
          a ∉ JsMap.keys (gerrit.getCategoryMap results)).
Proof.
  rewrite PopupWidget_create_eq. intros [= <-].
  unfold PopupWidget.getSections. cbn [PopupWidget.sections_].
  split.
  - intros Hnil a Ha Hkey.
    assert (a ∈ filter (λ attention,
                          JsMap.has (gerrit.getCategoryMap results) attention)
                       (SECTION_ORDERING messages)) as Hin.
    { apply list_elem_of_filter. split; [| done].
      by apply Is_true_true, JsMap_has_keys. }
    rewrite <- sections_attention, Hnil in Hin. by apply elem_of_nil in Hin.
  - intros Hnone.
    destruct (omap _ (SECTION_ORDERING messages)) as [|s ss] eqn:Hs; [done |].
    exfalso.
    assert (SectionWidget.attention_ s
            ∈ filter (λ attention,
                        JsMap.has (gerrit.getCategoryMap results) attention)
                     (SECTION_ORDERING messages)) as Hin.
    { rewrite <- sections_attention, Hs. apply list_elem_of_here. }
    apply list_elem_of_filter in Hin as [Hhas Hord].
    apply (Hnone _ Hord). by apply JsMap_has_keys, Is_true_true.
Qed.

Lemma sectionNodes_length messages w :
  Forall (λ s, is_Some (POPUP_SECTION_DATA messages
                          (SectionWidget.attention_ s)))
         (PopupWidget.getSections w) →
  length (sectionNodes messages w) = length (PopupWidget.getSections w).
Proof.
  destruct w as [ss]. unfold sectionNodes, PopupWidget.getSections.
  cbn [PopupWidget.sections_].
  induction 1 as [|s ss' [data Hdata] Hall IH]; [done |].
  cbn [omap list_omap]. rewrite Hdata. cbn [mbind option_bind length].
  by rewrite IH.
Qed.

(** X10. What the popup shows for search results, [PopupWidget.create]
    followed by [renderWidget]: the "no CLs" message is shown exactly when
    no entry of [SECTION_ORDERING] is a key of the category map, also when
    the map holds CLs under other keys; as soon as one entry is a key,
    even with an empty list, the results container is shown instead, with
    one more child per entry that is a key. *)
Theorem renderWidget_create_empty_state (messages : Messages)
    (results : gerrit.SearchResults) (p : Page) :
  ∃ widget,
    PopupWidget.create messages results = Some widget ∧
    (∀ text overlay container,
       elements p !! "overlay-text" = Some text →
       elements p !! "overlay" = Some overlay →
       elements p !! "results" = Some container →
       (∀ a, a ∈ SECTION_ORDERING messages →
             a ∉ JsMap.keys (gerrit.getCategoryMap results)) →
       ∃ p',
         renderWidget messages widget p = Some ((), p') ∧
         innerText <$> elements p' !! "overlay-text"
         = Some (NO_CLS_MESSAGE messages +:+ ".") ∧
         visible <$> elements p' !! "overlay" = Some true ∧
         visible <$> elements p' !! "results" = Some false) ∧
    (∀ overlay container permissions login a,
       elements p !! "overlay" = Some overlay →
       elements p !! "results" = Some container →
       elements p !! "permissions" = Some permissions →
       elements p !! "login" = Some login →
       a ∈ SECTION_ORDERING messages →
       a ∈ JsMap.keys (gerrit.getCategoryMap results) →
       (∀ a', a' ∈ SECTION_ORDERING messages →
              is_Some (POPUP_SECTION_DATA messages a')) →
       ∃ p' container',
         renderWidget messages widget p = Some ((), p') ∧
         elements p' !! "results" = Some container' ∧
         visible container' = true ∧
         visible <$> elements p' !! "overlay" = Some false ∧
         elements p' !! "overlay-text" = elements p !! "overlay-text" ∧
         length (childNodes container')
         = length (childNodes container)
           + length (filter (λ attention,
                               JsMap.has (gerrit.getCategoryMap results)
                                         attention)
                            (SECTION_ORDERING messages))).
Proof.
  destruct (PopupWidget.create messages results) as [widget|] eqn:Hcreate;
    [| by rewrite PopupWidget_create_eq in Hcreate].
  exists widget. split; [done |].
  pose proof (create_no_sections _ _ _ Hcreate) as Hnil.
  assert (SectionWidget.attention_ <$> PopupWidget.getSections widget
          = filter (λ attention,
                      JsMap.has (gerrit.getCategoryMap results) attention)
                   (SECTION_ORDERING messages)) as Hatt.
  { rewrite PopupWidget_create_eq in Hcreate. injection Hcreate as <-.
    apply sections_attention. }
  split.
  - intros text overlay container Ht Ho Hr Hnone.
    rewrite (renderWidget_nil_Some _ _ _ text overlay container)
      by (by try apply Hnil).
    eexists. split; [reflexivity |]. repeat split; by map_lookup.
  - intros overlay container permissions login a Ho Hr Hpm Hl Ha Hkey Hdata.
    assert (Forall (λ s, is_Some (POPUP_SECTION_DATA messages
                                    (SectionWidget.attention_ s)))
                   (PopupWidget.getSections widget)) as Hall.
    { apply Forall_forall. intros s Hs. apply Hdata.
      assert (SectionWidget.attention_ s
              ∈ SectionWidget.attention_ <$> PopupWidget.getSections widget)
        as Hin by by apply list_elem_of_fmap_2.
      rewrite Hatt in Hin. by apply list_elem_of_filter in Hin as [_ ?]. }
    rewrite (renderWidget_sections_Some _ _ _ overlay container
               permissions login); [| | done ..].
    + eexists _, _. split; [reflexivity |].
      split; [by map_lookup |]. split; [done |].
      split; [by map_lookup |]. split; [by map_lookup |].
      cbn [childNodes set_style_display appendNodes set_childNodes].
      rewrite length_app. f_equal.
      rewrite <- Hatt, length_fmap. by apply sectionNodes_length.
    + intros Hempty. destruct Hnil as [Hnil _].
      by apply (Hnil Hempty a).
Qed.

Lemma renderWidget_create_empty_state_witness :
  ∃ widget,
    PopupWidget.create sample_messages
      {| gerrit.getCategoryMap := [("elsewhere", [sample_cl])] |}
    = Some widget ∧
    (∃ p',
       renderWidget sample_messages widget popup_page = Some ((), p') ∧
       innerText <$> elements p' !! "overlay-text" = Some "No CLs." ∧
       visible <$> elements p' !! "results" = Some false) ∧
    ∃ widget' p' container',
      PopupWidget.create sample_messages
        {| gerrit.getCategoryMap := [("second", [])] |} = Some widget' ∧
      renderWidget sample_messages widget' popup_page = Some ((), p') ∧
      elements p' !! "results" = Some container' ∧
      visible container' = true ∧
      length (childNodes container') = 1.
Proof.
  destruct (renderWidget_create_empty_state sample_messages
              {| gerrit.getCategoryMap := [("elsewhere", [sample_cl])] |}
              popup_page) as (widget & Hcreate & Hempty & _).
  exists widget. split; [exact Hcreate |]. split.
  - destruct (Hempty (createElement "div") (createElement "div")
                (createElement "div") eq_refl eq_refl eq_refl)
      as (p' & Hrun & Htext & _ & Hres).
    + intros a Ha. apply (bool_decide_unpack _). revert a Ha.
      apply Forall_forall. apply (bool_decide_unpack _).
      vm_compute. reflexivity.
    + exists p'. repeat split; assumption.
  - destruct (renderWidget_create_empty_state sample_messages
                {| gerrit.getCategoryMap := [("second", [])] |}
                popup_page) as (widget' & Hcreate' & _ & Hshown).
    destruct (Hshown (createElement "div") (createElement "div")
                (createElement "div") (createElement "div") "second"
                eq_refl eq_refl eq_refl eq_refl)
      as (p' & container' & Hrun & Hres & Hvis & _ & _ & Hlen).
    + apply (bool_decide_unpack _). vm_compute. reflexivity.
    + apply (bool_decide_unpack _). vm_compute. reflexivity.
    + intros a' _. by eexists.
    + exists widget', p', container'. repeat split; assumption.
Defined.

(** X11. What [renderWidget] leaves alone and where it throws.  For a
    widget without sections it touches the overlay text, the overlay and
    the results container only: the login and permissions panels keep the
    state they had and need not exist.  For a widget with sections it
    hides the login and permissions panels besides, keeps the overlay
    text, and throws when the results container is missing or when
    [POPUP_SECTION_DATA] lacks the category of a section.  It never
    registers a callback. *)
Theorem renderWidget_frame_and_errors (messages : Messages)
    (widget : PopupWidget.t) (p : Page) :
  (∀ text overlay container,
     PopupWidget.getSections widget = [] →
     elements p !! "overlay-text" = Some text →
     elements p !! "overlay" = Some overlay →
     elements p !! "results" = Some container →
     ∃ p',
       renderWidget messages widget p = Some ((), p') ∧
       (∀ identifier,
          identifier ∉ ["overlay-text"; "overlay"; "results"] →
          elements p' !! identifier = elements p !! identifier) ∧
       pending p' = pending p) ∧
  (∀ overlay container permissions login,
     PopupWidget.getSections widget ≠ [] →
     Forall (λ s, is_Some (POPUP_SECTION_DATA messages
                             (SectionWidget.attention_ s)))
            (PopupWidget.getSections widget) →
     elements p !! "overlay" = Some overlay →
     elements p !! "results" = Some container →
     elements p !! "permissions" = Some permissions →
     elements p !! "login" = Some login →
     ∃ p',
       renderWidget messages widget p = Some ((), p') ∧
       visible <$> elements p' !! "login" = Some false ∧
       visible <$> elements p' !! "permissions" = Some false ∧
       (∀ identifier,
          identifier ∉ ["overlay"; "results"; "permissions"; "login"] →
          elements p' !! identifier = elements p !! identifier) ∧
       pending p' = pending p) ∧
  (PopupWidget.getSections widget ≠ [] →
   elements p !! "results" = None
   ∨ Exists (λ s, POPUP_SECTION_DATA messages (SectionWidget.attention_ s)
                  = None)
            (PopupWidget.getSections widget) →
   renderWidget messages widget p = None).
Proof.
  split; [| split].
  - intros text overlay container Hnil Ht Ho Hr.
    rewrite (renderWidget_nil_Some _ _ _ text overlay container) by done.
    eexists. split; [reflexivity |]. split; [| done].
    intros identifier Hid. cbn [elements].
    rewrite !lookup_insert_ne; [done | | |];
      intros <-; apply Hid; set_solver.
  - intros overlay container permissions login Hne Hdata Ho Hr Hpm Hl.
    rewrite (renderWidget_sections_Some _ _ _ overlay container
               permissions login) by done.
    eexists. split; [reflexivity |].
    split; [by map_lookup |]. split; [by map_lookup |]. split; [| done].
    intros identifier Hid. cbn [elements].
    rewrite !lookup_insert_ne; [done | | | | |];
      intros <-; apply Hid; set_solver.
  - intros Hne Hbad. unfold renderWidget.
    rewrite bool_decide_false
      by (by destruct (PopupWidget.getSections widget)).
    apply bind_None. cbv beta.
    destruct (elements p !! "results") as [container|] eqn:Hr; [| done].
    destruct Hbad as [Hbad|Hbad]; [done |].
    cbn [mbind option_bind]. by rewrite PopupWidget_render_None.
Qed.

Lemma renderWidget_frame_and_errors_witness :
  (∃ p',
     renderWidget sample_messages PopupWidget.new page_without_button
     = Some ((), p') ∧
     elements p' !! "login" = elements page_without_button !! "login") ∧
  (∃ p',
     renderWidget sample_messages sample_widget popup_page = Some ((), p') ∧
     visible <$> elements p' !! "login" = Some false ∧
     elements p' !! "overlay-text" = elements popup_page !! "overlay-text") ∧
  renderWidget sample_messages sample_widget
    {| elements := ∅; pending := [] |} = None.
Proof.
  split; [| split].
  - destruct (renderWidget_frame_and_errors sample_messages PopupWidget.new
                page_without_button) as (H & _ & _).
    destruct (H (createElement "div") (createElement "div")
                (createElement "div") eq_refl eq_refl eq_refl eq_refl)
      as (p' & Hrun & Hframe & _).
    exists p'. split; [exact Hrun |]. apply Hframe.
    apply (bool_decide_unpack _). vm_compute. reflexivity.
  - destruct (renderWidget_frame_and_errors sample_messages sample_widget
                popup_page) as (_ & H & _).
    destruct (H (createElement "div") (createElement "div")
                (createElement "div") (createElement "div"))
      as (p' & Hrun & Hlogin & _ & Hframe & _);
      [discriminate | | reflexivity | reflexivity | reflexivity
      | reflexivity |].
    + apply Forall_forall. intros s _. by eexists.
    + exists p'. split; [exact Hrun |]. split; [exact Hlogin |].
      apply Hframe. apply (bool_decide_unpack _). vm_compute. reflexivity.
  - destruct (renderWidget_frame_and_errors sample_messages sample_widget
                {| elements := ∅; pending := [] |}) as (_ & _ & H).
    apply H; [discriminate | left; reflexivity].
Defined.

(** ** The login links *)

Lemma loginLinks_children (instances : list gerrit.Instance) :
  children (loginLinks instances)
  = instances ≫= λ instance, [loginLink instance; el "br" [] []].
Proof.
  unfold children, loginLinks. cbn [childNodes el].
  induction instances as [|instance instances IH]; [done |].
  rewrite !bind_cons. cbn [app omap list_omap]. by rewrite IH.
Qed.

Lemma pairs_lookup {A B} (f g : A → B) (l : list A) i x :
  l !! i = Some x →
  (l ≫= λ y, [f y; g y]) !! (2 * i) = Some (f x) ∧
  (l ≫= λ y, [f y; g y]) !! (2 * i + 1) = Some (g x).
Proof.
  revert i. induction l as [|y l IH]; intros i Hi; [done |].
  rewrite bind_cons. destruct i as [|i].
  - injection Hi as ->. done.
  - replace (2 * S i) with (S (S (2 * i))) by lia.
    replace (S (S (2 * i)) + 1) with (S (S (2 * i + 1))) by lia.
    cbn [app lookup list_lookup]. by apply IH.
Qed.

Lemma pairs_length {A B} (f g : A → B) (l : list A) :
  length (l ≫= λ y, [f y; g y]) = 2 * length l.
Proof.
  induction l as [|y l IH]; [done |].
  rewrite bind_cons. cbn [app length]. rewrite IH. lia.
Qed.

(** X12. The callback that [setLoginLinkVisible] registers only appends:
    it keeps the children that the login element has when it runs and adds
    one [div] after them, changing nothing else of the element.  The [div]
    holds, for each instance in order, a link, with target [_blank], the
    host as [href] and the name as text, followed by a [br]; without
    instances the [div] is empty. *)
Theorem renderLoginLinks_links (instances : list gerrit.Instance)
    (login : Element) :
  ∃ block,
    childNodes (renderLoginLinks instances login)
    = childNodes login ++ [ElementNode block] ∧
    renderLoginLinks instances login
    = set_childNodes (childNodes (renderLoginLinks instances login)) login ∧
    tagName block = "div" ∧
    length (childNodes block) = 2 * length instances ∧
    length (children block) = 2 * length instances ∧
    (∀ i instance,
       instances !! i = Some instance →
       ∃ a br,
         children block !! (2 * i) = Some a ∧
         tagName a = "a" ∧
         attributes a
         = [("target", "_blank"); ("href", gerrit.host instance)] ∧
         childNodes a = [TextNode (gerrit.instance_name instance)] ∧
         children block !! (2 * i + 1) = Some br ∧
         tagName br = "br" ∧ childNodes br = []).
Proof.
  exists (loginLinks instances). rewrite renderLoginLinks_eq.
  split; [done |]. split; [done |]. split; [done |].
  split; [unfold loginLinks; cbn [childNodes el]; apply pairs_length |].
  rewrite loginLinks_children.
  split; [apply pairs_length |].
  intros i instance Hi.
  destruct (pairs_lookup loginLink (λ _, el "br" [] []) instances i instance Hi)
    as [Ha Hbr].
  exists (loginLink instance), (el "br" [] []). by repeat split.
Qed.

Lemma renderLoginLinks_links_witness :
  ∃ block a,
    childNodes (renderLoginLinks [sample_instance] (createElement "div"))
    = [] ++ [ElementNode block] ∧
    children block !! (2 * 0) = Some a ∧
    attributes a
    = [("target", "_blank"); ("href", "https://gerrit.example")] ∧
    childNodes a = [TextNode "Example"].
Proof.
  destruct (renderLoginLinks_links [sample_instance] (createElement "div"))
    as (block & Hchildren & _ & _ & _ & _ & Hlinks).
  destruct (Hlinks 0 sample_instance eq_refl)
    as (a & br & Ha & _ & Hattr & Htext & _).
  exists block, a. repeat split; assumption.
Defined.

Lemma settle_head instances p login rest :
  pending p = PopulateLogin :: rest →
  elements p !! "login" = Some login →
  settle 0 (Fulfilled instances) p
  = Some ((), {| elements :=
                   <["login" :=
                       appendChild (ElementNode (loginLinks instances)) login]>
                     (elements p);
                 pending := rest |}).
Proof.
  intros Hp Hl. unfold settle. rewrite Hp.
  cbn [lookup list_lookup delete list_delete].
  unfold run. js_unfold. js_lookup Hl. by rewrite renderLoginLinks_eq.
Qed.

(** X13. The callback of the login links does not look at the state of
    the panel: when the overlay is hidden after [setLoginLinkVisible(true)]
    and before the instances arrive, the links are still added, to a login
    element that stays hidden. *)
Theorem login_links_added_when_hidden (p : Page)
    (overlay results permissions login : Element)
    (instances : list gerrit.Instance) :
  elements p !! "overlay" = Some overlay →
  elements p !! "results" = Some results →
  elements p !! "permissions" = Some permissions →
  elements p !! "login" = Some login →
  pending p = [] →
  ∃ p' login',
    (setLoginLinkVisible true;; setOverlayVisible false;;
     settle 0 (Fulfilled instances)) p = Some ((), p') ∧
    elements p' !! "login" = Some login' ∧
    visible login' = false ∧
    childNodes login' = [ElementNode (loginLinks instances)] ∧
    pending p' = [].
Proof.
  intros Ho Hr Hpm Hl Hp.
  rewrite (bind_Some _ _ _ _ _ (setLoginLinkVisible_true_Some p login Hl)).
  erewrite bind_Some;
    [| apply (setOverlayVisible_false_Some _ overlay results permissions);
       by map_lookup].
  erewrite settle_head;
    [| cbn [pending]; by rewrite Hp | by map_lookup].
  eexists _, _. split; [reflexivity |].
  split; [by map_lookup |]. by repeat split.
Qed.

Lemma login_links_added_when_hidden_witness :
  ∃ p' login',
    (setLoginLinkVisible true;; setOverlayVisible false;;
     settle 0 (Fulfilled [sample_instance])) popup_page = Some ((), p') ∧
    elements p' !! "login" = Some login' ∧
    visible login' = false ∧
    childNodes login' = [ElementNode (loginLinks [sample_instance])] ∧
    pending p' = [].
Proof.
  exact (login_links_added_when_hidden popup_page
           (createElement "div") (createElement "div")
           (createElement "div") (createElement "div") [sample_instance]
           eq_refl eq_refl eq_refl eq_refl eq_refl).
Defined.

(** X14. No rejection handler is registered with the callback of the
    login links: when the promise of the instances is rejected after
    [setLoginLinkVisible(true)], the callback is dropped and the page stays
    as the call left it, the login element shown and without children, the
    overlay text untouched. *)
Theorem login_fetch_rejected (p : Page) (login : Element)
    (reason : JsValue) :
  elements p !! "login" = Some login →
  pending p = [] →
  ∃ p1 p2,
    setLoginLinkVisible true p = Some ((), p1) ∧
    settle 0 (Rejected reason) p1 = Some ((), p2) ∧
    elements p2 = elements p1 ∧
    pending p2 = [] ∧
    visible <$> elements p2 !! "login" = Some true ∧
    childNodes <$> elements p2 !! "login" = Some [] ∧
    elements p2 !! "overlay-text" = elements p !! "overlay-text".
Proof.
  intros Hl Hp. eexists _, _.
  split; [by apply setLoginLinkVisible_true_Some |].
  unfold settle. cbn [pending elements]. rewrite Hp.
  cbn [app lookup list_lookup delete list_delete].
  split; [reflexivity |]. cbn [elements pending].
  repeat split; by map_lookup.
Qed.

Lemma login_fetch_rejected_witness :
  ∃ p1 p2,
    setLoginLinkVisible true popup_page = Some ((), p1) ∧
    settle 0 (Rejected (JsStr "offline")) p1 = Some ((), p2) ∧
    pending p2 = [] ∧
    visible <$> elements p2 !! "login" = Some true ∧
    childNodes <$> elements p2 !! "login" = Some [].
Proof.
  destruct (login_fetch_rejected popup_page (createElement "div")
              (JsStr "offline") eq_refl eq_refl)
    as (p1 & p2 & Hrun & Hset & _ & Hpend & Hvis & Hch & _).
  exists p1, p2. repeat split; assumption.
Defined.
